(** * DisasterSentinel: normalisation and geospatial filtering pipeline

    A shallow embedding of the server-side aggregation code
    (server/api/index.ts, server/api/usgs.ts, server/api/noaa.ts,
    server/api/openweathermap.ts, server/utils/alertUtils.ts) and the
    properties of its severity classification, lexicon matching, error
    propagation and radius filter.

    Conventions of the embedding.
    - A number read from a JSON payload or from a query string is a decimal
      fraction: it is a [Q].  Comparisons are the boolean ones of [Q], so the
      classifiers run by computation.
    - A number that the code computes and that may be NaN (a centroid, the
      value of [parseFloat]) is a [number]: [Num q] or [NaN].
    - The results of [Math.sin], [Math.cos], [Math.sqrt] and [Math.atan2] are
      exact real numbers ([R]); rounding of IEEE doubles is not modelled.
    - An exception is a [Throw]; a promise is the list of adapter calls made
      so far together with its settled result. *)

From Stdlib Require Import List String Ascii Bool ZArith QArith Qreduction.
From Stdlib Require Import Reals Lra Lia Lqa.
Import ListNotations.

Set Implicit Arguments.

(** ** server/utils/alertUtils.ts *)

Inductive DisasterType := Earthquake | Flood | Storm | Wildfire.

Inductive AlertType := Warning | Watch | Advisory.

Definition DisasterType_eqb (a b : DisasterType) : bool :=
  match a, b with
  | Earthquake, Earthquake | Flood, Flood | Storm, Storm | Wildfire, Wildfire => true
  | _, _ => false
  end.

Definition AlertType_eqb (a b : AlertType) : bool :=
  match a, b with
  | Warning, Warning | Watch, Watch | Advisory, Advisory => true
  | _, _ => false
  end.

(** Severity order of the alert levels: Warning > Watch > Advisory. *)
Definition severity (a : AlertType) : nat :=
  match a with Warning => 2 | Watch => 1 | Advisory => 0 end.

Definition alert_max (a b : AlertType) : AlertType :=
  if (severity a <? severity b)%nat then b else a.

Local Open Scope string_scope.
Local Open Scope list_scope.

Definition mapTimeRangeToValue (timeRange : string) : string :=
  if (timeRange =? "1h") || (timeRange =? "hour") then "hour"
  else if (timeRange =? "24h") || (timeRange =? "1d") || (timeRange =? "1day") then "1day"
  else if (timeRange =? "7d") || (timeRange =? "7days") || (timeRange =? "week") then "7days"
  else if (timeRange =? "30d") || (timeRange =? "30days") || (timeRange =? "month") then "30days"
  else "1day".

(** ** JavaScript values *)

(** [a >= b] on two finite numbers. *)
Definition geq (a b : Q) : bool := Qle_bool b a.

(** Truthiness of a finite number: every number but zero. *)
Definition truthyQ (q : Q) : bool := negb (Qeq_bool q 0).

(** A computed number: finite, or NaN. *)
Inductive number := Num (q : Q) | NaN.

(** The text of a coordinate column.  The code observes such a string in two
    ways only: whether it is empty ([!s]) and what [parseFloat] reads from it.
    [TextOf x] is [x.toString()], which is never empty and which [parseFloat]
    reads back as [x] (["NaN"] as NaN); [EmptyText] is the empty string. *)
Inductive text := TextOf (x : number) | EmptyText.

Definition toString (x : number) : text := TextOf x.

Definition parseFloat (s : text) : number :=
  match s with TextOf x => x | EmptyText => NaN end.

(** [!s] for a string. *)
Definition is_empty (s : text) : bool :=
  match s with TextOf _ => false | EmptyText => true end.

(** ** shared/schema.ts: the unified record *)

(** Identifiers: the native identifier of the feed, or one of the three
    template strings of the OpenWeatherMap adapter. *)
Inductive ident :=
| NativeId (s : string)
| OwmAlertId (lat lon : Q) (start : Z)
| OwmCurrentId (id dt : Z)
| OwmOneCallId (lat lon : Q) (dt : Z).

Inductive Source := USGS | NOAA | OpenWeatherMap.

(** The columns read by the aggregation step and by the statements below;
    title, description, timestamp, validUntil and data are written by the
    adapters and never read again by the server code.  [disasterType] and
    [alertType] are text columns; the adapters write the values of the two
    enumerations into them, and the record holds those. *)
Record Disaster := mkDisaster {
  id : ident;
  disasterType : DisasterType;
  alertType : AlertType;
  location : string;
  latitude : text;
  longitude : text;
  source : Source
}.

(** ** Exceptions and promises *)

Inductive result (A : Type) := Ok (a : A) | Throw (msg : string).
Arguments Throw {A} msg.

(** What one upstream request yields: the parsed body, or one of the three
    failures of the feed.  [Malformed] is a body that does not have the
    declared shape, on which the mapping code raises a TypeError. *)
Inductive upstream (A : Type) :=
| Delivered (body : A)
| NetworkFailure
| BadStatus (status : Z)
| Malformed.
Arguments NetworkFailure {A}.
Arguments BadStatus {A} status.
Arguments Malformed {A}.

(** The adapter entry points; a promise records which of them were called. *)
Inductive Call :=
| FetchEarthquakeData (timeRange : string)
| FetchWeatherAlerts (area : option string)
| FetchCurrentWeather (latitude longitude : Q)
| FetchWeatherOneCall (latitude longitude : Q).

Definition Promise (A : Type) : Type := (list Call * result A)%type.

Definition resolve {A} (a : A) : Promise A := ([], Ok a).
Definition reject {A} (msg : string) : Promise A := ([], Throw msg).

Definition bind {A B} (m : Promise A) (k : A -> Promise B) : Promise B :=
  match m with
  | (calls, Ok a) => let (calls', r) := k a in (calls ++ calls', r)
  | (calls, Throw e) => (calls, Throw e)
  end.

Notation "'await' x '<-' m ';' k" := (bind m (fun x => k))
  (at level 10, x name, m at level 100, k at level 200).

(** [try { body } catch (error) { handler }] *)
Definition try_catch {A} (body : Promise A) (handler : string -> Promise A) : Promise A :=
  match body with
  | (calls, Ok a) => (calls, Ok a)
  | (calls, Throw e) => let (calls', r) := handler e in (calls ++ calls', r)
  end.

(** Entering an adapter function. *)
Definition called {A} (c : Call) (body : Promise A) : Promise A :=
  (c :: fst body, snd body).

(** [axios.get]: a network failure and a non-2xx status reject.  For a
    malformed body the rejection stands for the TypeError that the mapping
    code raises on it, inside the same [try] block. *)
Definition axios_get {A} (response : upstream A) : Promise A :=
  match response with
  | Delivered body => resolve body
  | NetworkFailure => reject "Network Error"
  | BadStatus _ => reject "Request failed with status code"
  | Malformed => reject "TypeError"
  end.

(** A synchronous computation that may raise, inside an async function. *)
Definition lift {A} (r : result A) : Promise A := ([], r).

(** [Promise.all] of three promises: the three are started in order, and the
    whole rejects when one of them rejects.  (Which rejection wins depends on
    timing; every caller below replaces the message.) *)
Definition Promise_all3 {A B C} (p1 : Promise A) (p2 : Promise B) (p3 : Promise C)
  : Promise (A * B * C) :=
  let calls := fst p1 ++ fst p2 ++ fst p3 in
  match snd p1, snd p2, snd p3 with
  | Ok a, Ok b, Ok c => (calls, Ok (a, b, c))
  | Throw e, _, _ => (calls, Throw e)
  | _, Throw e, _ => (calls, Throw e)
  | _, _, Throw e => (calls, Throw e)
  end.

(** ** server/api/usgs.ts *)

Module Usgs.

Definition MAGNITUDE_WARNING_THRESHOLD : Q := 5.0.
Definition MAGNITUDE_WATCH_THRESHOLD : Q := 4.0.

Record USGSFeature := {
  feature_id : string;
  mag : Q;
  place : string;
  coordinates : Q * Q * Q   (* longitude, latitude, depth *)
}.

Record USGSResponse := { features : list USGSFeature }.

Definition magnitudeAlertType (m : Q) : AlertType :=
  if geq m MAGNITUDE_WARNING_THRESHOLD then Warning
  else if geq m MAGNITUDE_WATCH_THRESHOLD then Watch
  else Advisory.

Definition mapFeature (feature : USGSFeature) : Disaster :=
  let alertType := magnitudeAlertType (mag feature) in
  let '(longitude, latitude, _) := coordinates feature in
  {| id := NativeId (feature_id feature);
     disasterType := Earthquake;
     alertType := alertType;
     location := place feature;
     latitude := toString (Num latitude);
     longitude := toString (Num longitude);
     source := USGS |}.

Definition mapUSGSResponseToDisasters (data : USGSResponse) : list Disaster :=
  map mapFeature (features data).

(** The [switch] on the time range. *)
Definition endpoint (timeRange : string) : string :=
  if (timeRange =? "1h") || (timeRange =? "hour") then "all_hour.geojson"
  else if (timeRange =? "24h") || (timeRange =? "1day") then "all_day.geojson"
  else if (timeRange =? "7d") || (timeRange =? "7days") then "all_week.geojson"
  else if (timeRange =? "30d") || (timeRange =? "30days") then "all_month.geojson"
  else "all_day.geojson".

(** [feed] is the seismic feed: what a GET of each summary file yields. *)
Definition fetchEarthquakeData (feed : string -> upstream USGSResponse)
           (timeRange : string) : Promise (list Disaster) :=
  called (FetchEarthquakeData timeRange)
    (try_catch
       (await data <- axios_get (feed (endpoint timeRange));
        resolve (mapUSGSResponseToDisasters data))
       (fun _ => reject "Failed to fetch earthquake data")).

End Usgs.

(** ** JavaScript strings

    Event names and lexicon keys are ASCII; [toLowerCase] maps A..Z to a..z
    and [includes] is the substring test. *)

Definition lower_ascii (c : ascii) : ascii :=
  let n := nat_of_ascii c in
  if ((65 <=? n) && (n <=? 90))%nat then ascii_of_nat (n + 32) else c.

Fixpoint toLowerCase (s : string) : string :=
  match s with
  | EmptyString => EmptyString
  | String c s' => String (lower_ascii c) (toLowerCase s')
  end.

Fixpoint includes (s sub : string) : bool :=
  String.prefix sub s ||
  match s with
  | EmptyString => false
  | String _ s' => includes s' sub
  end.

(** ** server/api/noaa.ts *)

Module Noaa.

(** A GeoJSON geometry as the adapter reads it.  A coordinate pair is
    (longitude, latitude).  [OtherGeometry] is a geometry whose type is none
    of the three names, or whose coordinates are not an array. *)
Inductive Geometry :=
| Point (lon lat : Q)
| Polygon (rings : list (list (Q * Q)))
| MultiPolygon (polygons : list (list (list (Q * Q))))
| OtherGeometry (type : string).

Record NOAAAlert := {
  alert_id : string;
  event : string;
  severity_text : string;   (* properties.severity *)
  areaDesc : string;
  geometry : option Geometry
}.

Record NOAAResponse := { features : list NOAAAlert }.

(** The lexicon, in declaration order: the order of [Object.keys] and
    [Object.entries] for string keys. *)
Definition noaaEventToDisasterType : list (string * DisasterType) :=
  [ ("Tornado", Storm);
    ("Tornado Warning", Storm);
    ("Tornado Watch", Storm);
    ("Severe Thunderstorm", Storm);
    ("Severe Thunderstorm Warning", Storm);
    ("Severe Thunderstorm Watch", Storm);
    ("Flash Flood", Flood);
    ("Flash Flood Warning", Flood);
    ("Flash Flood Watch", Flood);
    ("Flood", Flood);
    ("Flood Warning", Flood);
    ("Flood Watch", Flood);
    ("Hurricane", Storm);
    ("Hurricane Warning", Storm);
    ("Hurricane Watch", Storm);
    ("Tropical Storm", Storm);
    ("Tropical Storm Warning", Storm);
    ("Tropical Storm Watch", Storm);
    ("Winter Storm", Storm);
    ("Winter Storm Warning", Storm);
    ("Winter Storm Watch", Storm);
    ("Blizzard", Storm);
    ("Blizzard Warning", Storm);
    ("Blizzard Watch", Storm);
    ("Tsunami", Flood);
    ("Tsunami Warning", Flood);
    ("Tsunami Watch", Flood);
    ("Red Flag", Wildfire);
    ("Fire Weather", Wildfire);
    ("Fire Warning", Wildfire);
    ("Wildfire", Wildfire) ].

(** [noaaSeverityToAlertType[severity] || AlertType.Advisory], for a
    severity that is not the name of a property every object inherits
    (constructor, toString, ...): for such a name the lookup yields that
    property, which is no level, and the feed is outside the embedding. *)
Definition noaaSeverityToAlertType (severity : string) : AlertType :=
  if severity =? "Extreme" then Warning
  else if severity =? "Severe" then Warning
  else if severity =? "Moderate" then Watch
  else if severity =? "Minor" then Advisory
  else if severity =? "Unknown" then Advisory
  else Advisory.

(** The predicate of the [filter] step. *)
Definition relevant (feature : NOAAAlert) : bool :=
  existsb (fun key => includes (toLowerCase (event feature)) (toLowerCase key))
          (map fst noaaEventToDisasterType).

(** The [for ... of Object.entries] loop with its [break]; [disasterType]
    is the variable the loop assigns. *)
Fixpoint entriesLoop (entries : list (string * DisasterType)) (event : string)
         (disasterType : DisasterType) : DisasterType :=
  match entries with
  | [] => disasterType
  | (key, value) :: rest =>
      if includes (toLowerCase event) (toLowerCase key) then value
      else entriesLoop rest event disasterType
  end.

(** [coordinates.reduce((sum, coord) => sum + coord[i], 0)] *)
Definition sumLat (coordinates : list (Q * Q)) : Q :=
  fold_left (fun sum coord => sum + snd coord) coordinates 0.
Definition sumLng (coordinates : list (Q * Q)) : Q :=
  fold_left (fun sum coord => sum + fst coord) coordinates 0.

(** [sum / coordinates.length]; the sum of an empty ring is 0 and 0/0 is NaN.
    For a ring with vertices the quotient is the exact mean; the code's is
    this number up to the rounding of the sum and of the division. *)
Definition divLength (sum : Q) (coordinates : list (Q * Q)) : number :=
  match coordinates with
  | [] => NaN
  | _ => Num (sum / inject_Z (Z.of_nat (List.length coordinates)))
  end.

(** The centre of the affected area, as (latitude, longitude).  Reading the
    first ring of a geometry that has none raises a TypeError. *)
Definition extractCoordinates (g : option Geometry) : result (number * number) :=
  match g with
  | None => Ok (Num 0, Num 0)
  | Some (Point longitude latitude) => Ok (Num latitude, Num longitude)
  | Some (Polygon rings) =>
      match rings with
      | coordinates :: _ =>
          Ok (divLength (sumLat coordinates) coordinates,
              divLength (sumLng coordinates) coordinates)
      | [] => Throw "TypeError"
      end
  | Some (MultiPolygon polygons) =>
      match polygons with
      | (coordinates :: _) :: _ =>
          Ok (divLength (sumLat coordinates) coordinates,
              divLength (sumLng coordinates) coordinates)
      | _ => Throw "TypeError"
      end
  | Some (OtherGeometry _) => Ok (Num 0, Num 0)
  end.

(** The body of the [map] step. *)
Definition mapFeature (feature : NOAAAlert) : result Disaster :=
  let disasterType := entriesLoop noaaEventToDisasterType (event feature) Storm in
  let alertType := noaaSeverityToAlertType (severity_text feature) in
  match extractCoordinates (geometry feature) with
  | Throw e => Throw e
  | Ok (latitude, longitude) =>
      Ok {| id := NativeId (alert_id feature);
            disasterType := disasterType;
            alertType := alertType;
            location := areaDesc feature;
            latitude := toString latitude;
            longitude := toString longitude;
            source := NOAA |}
  end.

(** [Array.prototype.map] with a callback that may raise. *)
Fixpoint mapM {A B : Type} (f : A -> result B) (l : list A) : result (list B) :=
  match l with
  | [] => Ok []
  | x :: rest =>
      match f x with
      | Throw e => Throw e
      | Ok y => match mapM f rest with
                | Throw e => Throw e
                | Ok ys => Ok (y :: ys)
                end
      end
  end.

Definition mapNOAAResponseToDisasters (data : NOAAResponse) : result (list Disaster) :=
  mapM mapFeature (filter relevant (features data)).

(** [feed] is the weather-alert feed: what a GET of the active alerts yields,
    for all areas ([None]) or for one area.  An empty [area] is falsy and
    selects the plain URL. *)
Definition fetchWeatherAlerts (feed : option string -> upstream NOAAResponse)
           (area : option string) : Promise (list Disaster) :=
  called (FetchWeatherAlerts area)
    (try_catch
       (let url := match area with
                   | Some a => if a =? EmptyString then None else Some a
                   | None => None
                   end in
        await data <- axios_get (feed url);
        lift (mapNOAAResponseToDisasters data))
       (fun _ => reject "Failed to fetch weather alerts")).

End Noaa.

(** ** server/api/openweathermap.ts *)

Module Owm.

Definition SEVERE_WEATHER_CODES : list Z :=
  [ 200; 201; 202; 210; 211; 212; 221; 230; 231; 232;
    502; 503; 504; 511; 522; 531;
    602; 622;
    771; 781 ]%Z.

Definition WIND_WARNING_THRESHOLD : Q := 17.2.
Definition WIND_WATCH_THRESHOLD : Q := 10.8.

Definition RAIN_WARNING_THRESHOLD : Q := 50.
Definition RAIN_WATCH_THRESHOLD : Q := 25.

Record OWMWeather := {
  weather_id : Z;
  main : string;
  description : string
}.

(** [rain?: { '1h'?: number; '3h'?: number }] *)
Record Rain := { rain_1h : option Q; rain_3h : option Q }.

Record OWMCurrentWeather := {
  coord_lon : Q;
  coord_lat : Q;
  weather : list OWMWeather;
  wind_speed : Q;              (* wind.speed *)
  rain : option Rain;
  dt : Z;
  city_id : Z;                 (* id *)
  name : string;
  country : string             (* sys.country *)
}.

Record OWMAlert := {
  sender_name : string;
  alert_event : string;        (* event *)
  start : Z;
  alert_description : string   (* description *)
}.

(** One entry of [hourly]; [rain?: { '1h': number }]. *)
Record Hourly := { hour_rain : option Q }.

Record Current := {
  current_dt : Z;
  current_wind_speed : Q;
  current_weather : list OWMWeather
}.

Record OWMOneCall := {
  lat : Q;
  lon : Q;
  timezone : string;
  current : Current;
  hourly : option (list Hourly);
  alerts : option (list OWMAlert)
}.

(** [weatherId] is one of the [SEVERE_WEATHER_CODES]. *)
Definition isSevere (w : OWMWeather) : bool :=
  existsb (Z.eqb (weather_id w)) SEVERE_WEATHER_CODES.

Definition getSevereWeatherType (weatherId : Z) : DisasterType :=
  if ((200 <=? weatherId) && (weatherId <? 300))%Z then Storm
  else if ((500 <=? weatherId) && (weatherId <? 600))%Z
          && existsb (Z.eqb weatherId) [502; 503; 504; 511; 522; 531]%Z then Flood
  else if ((600 <=? weatherId) && (weatherId <? 700))%Z
          && existsb (Z.eqb weatherId) [602; 622]%Z then Storm
  else if (weatherId =? 781)%Z then Storm
  else Storm.

(** [s.replace(c, by)] with a one-character pattern: the first occurrence. *)
Fixpoint replace (s : string) (c : ascii) (by_ : string) : string :=
  match s with
  | EmptyString => EmptyString
  | String x s' => if Ascii.eqb x c then (by_ ++ s')%string else String x (replace s' c by_)
  end.

Definition timezoneLocation (timezone : string) : string :=
  replace (replace timezone "_"%char " ") "/"%char ", ".

Definition processWeatherAlerts (data : OWMOneCall) : list Disaster :=
  match alerts data with
  | None | Some [] => []
  | Some alerts =>
      map (fun alert =>
             let disasterType :=
               if includes (toLowerCase (alert_event alert)) "flood" then Flood
               else if includes (toLowerCase (alert_event alert)) "fire" then Wildfire
               else Storm in
             let alertType :=
               if includes (toLowerCase (alert_event alert)) "warning" then Warning
               else if includes (toLowerCase (alert_event alert)) "watch" then Watch
               else if includes (toLowerCase (alert_event alert)) "advisory" then Advisory
               else Advisory in
             {| id := OwmAlertId (lat data) (lon data) (start alert);
                disasterType := disasterType;
                alertType := alertType;
                location := timezoneLocation (timezone data);
                latitude := toString (Num (lat data));
                longitude := toString (Num (lon data));
                source := OpenWeatherMap |})
          alerts
  end.

(** The wind rule, shared by the two analyses: the first [if ... else if]. *)
Definition windAlertType (speed : Q) (alertType : AlertType) : AlertType :=
  if geq speed WIND_WARNING_THRESHOLD then Warning
  else if geq speed WIND_WATCH_THRESHOLD then Watch
  else alertType.

(** The rainfall rule of [analyzeCurrentWeather]: the second [if] block,
    applied to the level the wind rule left in [alertType]. *)
Definition rainAlertType (rain : option Rain) (alertType : AlertType) : AlertType :=
  match rain with
  | Some r =>
      match rain_3h r with
      | Some r3 =>
          if truthyQ r3 then
            if geq r3 RAIN_WARNING_THRESHOLD then Warning
            else if geq r3 RAIN_WATCH_THRESHOLD then Watch
            else alertType
          else alertType
      | None => alertType
      end
  | None => alertType
  end.

Definition analyzeCurrentWeather (data : OWMCurrentWeather) : list Disaster :=
  match find isSevere (weather data) with
  | Some severeCondition =>
      let alertType := Advisory in
      let alertType := windAlertType (wind_speed data) alertType in
      let alertType := rainAlertType (rain data) alertType in
      [ {| id := OwmCurrentId (city_id data) (dt data);
           disasterType := getSevereWeatherType (weather_id severeCondition);
           alertType := alertType;
           location := (name data ++ ", " ++ country data)%string;
           latitude := toString (Num (coord_lat data));
           longitude := toString (Num (coord_lon data));
           source := OpenWeatherMap |} ]
  | None => []
  end.

(** [hour.rain && hour.rain['1h'] && hour.rain['1h'] >= RAIN_WATCH_THRESHOLD/3] *)
Definition heavyRainHour (hour : Hourly) : bool :=
  match hour_rain hour with
  | Some r1 => truthyQ r1 && geq r1 (RAIN_WATCH_THRESHOLD / 3)
  | None => false
  end.

(** The forecast rule of [analyzeWeatherConditions], applied to the level
    the wind rule left in [alertType]. *)
Definition forecastAlertType (hourly : option (list Hourly)) (alertType : AlertType)
  : AlertType :=
  match hourly with
  | Some hourly =>
      let nextFewHours := firstn 12 hourly in
      let heavyRainForecast := existsb heavyRainHour nextFewHours in
      if heavyRainForecast then Watch else alertType
  | None => alertType
  end.

Definition analyzeWeatherConditions (data : OWMOneCall) : list Disaster :=
  match find isSevere (current_weather (current data)) with
  | Some severeCondition =>
      let alertType := Advisory in
      let alertType := windAlertType (current_wind_speed (current data)) alertType in
      let alertType := forecastAlertType (hourly data) alertType in
      [ {| id := OwmOneCallId (lat data) (lon data) (current_dt (current data));
           disasterType := getSevereWeatherType (weather_id severeCondition);
           alertType := alertType;
           location := timezoneLocation (timezone data);
           latitude := toString (Num (lat data));
           longitude := toString (Num (lon data));
           source := OpenWeatherMap |} ]
  | None => []
  end.

(** [process.env.OPENWEATHERMAP_API_KEY || process.env.OWM_API_KEY || ''],
    the two arguments being the two environment variables (unset: [None]). *)
Definition OWM_API_KEY (OPENWEATHERMAP_API_KEY OWM_API_KEY : option string) : string :=
  let or_else (v : option string) (other : string) :=
    match v with
    | Some s => if s =? EmptyString then other else s
    | None => other
    end in
  or_else OPENWEATHERMAP_API_KEY (or_else OWM_API_KEY EmptyString).

(** [key] is the value of [OWM_API_KEY]; [feed] is what a GET of the endpoint
    yields for a latitude and a longitude. *)
Definition fetchCurrentWeather (key : string)
           (feed : Q -> Q -> upstream OWMCurrentWeather)
           (latitude longitude : Q) : Promise (list Disaster) :=
  called (FetchCurrentWeather latitude longitude)
    (try_catch
       (if key =? EmptyString then resolve []
        else
          await data <- axios_get (feed latitude longitude);
          let disasters := analyzeCurrentWeather data in
          resolve disasters)
       (fun _ => resolve [])).

Definition fetchWeatherOneCall (key : string)
           (feed : Q -> Q -> upstream OWMOneCall)
           (latitude longitude : Q) : Promise (list Disaster) :=
  called (FetchWeatherOneCall latitude longitude)
    (try_catch
       (if key =? EmptyString then resolve []
        else
          await data <- axios_get (feed latitude longitude);
          let alertDisasters := processWeatherAlerts data in
          let conditionDisasters := analyzeWeatherConditions data in
          resolve (alertDisasters ++ conditionDisasters))
       (fun _ => resolve [])).

End Owm.

(** ** server/api/index.ts *)

Module Api.

(** A number computed with the [Math] functions: an exact real, or NaN. *)
Inductive real := Real (r : R) | RNaN.

Definition toReal (x : number) : real :=
  match x with Num q => Real (Q2R q) | NaN => RNaN end.

(** [Math.sqrt]: NaN below zero. *)
Definition Math_sqrt (x : R) : real :=
  if Rle_dec 0 x then Real (sqrt x) else RNaN.

(** [Math.atan2(y, x)]: the angle of the point (x, y), in (-PI, PI]. *)
Definition Math_atan2 (y x : R) : R :=
  if Rlt_dec 0 x then atan (y / x)
  else if Rlt_dec x 0 then
    (if Rle_dec 0 y then atan (y / x) + PI else atan (y / x) - PI)
  else if Rlt_dec 0 y then PI / 2
  else if Rlt_dec y 0 then - PI / 2
  else 0.

(** The Haversine formula.  [R_earth] is the constant [R] of the source.
    An operand that is NaN makes the result NaN.  The arithmetic is exact:
    the code evaluates the same expression in doubles, whose result is this
    number up to rounding, or NaN where rounding carries [a] out of [0, 1]
    (two nearly antipodal points). *)
Definition calculateDistance (lat1 lon1 lat2 lon2 : real) : real :=
  match lat1, lon1, lat2, lon2 with
  | Real lat1, Real lon1, Real lat2, Real lon2 =>
      let R_earth := 6371 in
      let dLat := (lat2 - lat1) * PI / 180 in
      let dLon := (lon2 - lon1) * PI / 180 in
      let a :=
        sin (dLat / 2) * sin (dLat / 2) +
        cos (lat1 * PI / 180) * cos (lat2 * PI / 180) *
        sin (dLon / 2) * sin (dLon / 2) in
      match Math_sqrt a, Math_sqrt (1 - a) with
      | Real y, Real x =>
          let c := 2 * Math_atan2 y x in
          Real (R_earth * c)
      | _, _ => RNaN
      end
  | _, _, _, _ => RNaN
  end%R.

(** [distance <= radius]; a comparison with NaN is false. *)
Definition leq (distance : real) (radius : R) : bool :=
  match distance with
  | Real d => if Rle_dec d radius then true else false
  | RNaN => false
  end.

(** The [options] argument.  An absent property is [None]. *)
Module Options.
Record t := {
  types : option (list DisasterType);
  alertTypes : option (list AlertType);
  timeRange : option string;
  latitude : option number;
  longitude : option number;
  radius : option number
}.
End Options.

(** Truthiness of an optional number, with the value when it is truthy:
    [undefined], NaN and 0 are falsy. *)
Definition truthy (x : option number) : option Q :=
  match x with
  | Some (Num q) => if truthyQ q then Some q else None
  | Some NaN => None
  | None => None
  end.

(** [list && list.length > 0], with the list when the test passes. *)
Definition nonEmpty {A} (l : option (list A)) : option (list A) :=
  match l with
  | Some (x :: rest) => Some (x :: rest)
  | _ => None
  end.

(** The three feeds and the environment of the server. *)
Record World := {
  env_OPENWEATHERMAP_API_KEY : option string;
  env_OWM_API_KEY : option string;
  usgs : string -> upstream Usgs.USGSResponse;
  noaa : option string -> upstream Noaa.NOAAResponse;
  owm_weather : Q -> Q -> upstream Owm.OWMCurrentWeather;
  owm_onecall : Q -> Q -> upstream Owm.OWMOneCall
}.

(** The callback of the location filter. *)
Definition withinRadius (lat lon radius : Q) (disaster : Disaster) : bool :=
  if is_empty (latitude disaster) || is_empty (longitude disaster) then false
  else
    let distance :=
      calculateDistance (Real (Q2R lat)) (Real (Q2R lon))
                        (toReal (parseFloat (latitude disaster)))
                        (toReal (parseFloat (longitude disaster))) in
    leq distance (Q2R radius).

Definition filterByTypes (types : option (list DisasterType)) (allDisasters : list Disaster)
  : list Disaster :=
  match nonEmpty types with
  | Some types =>
      filter (fun disaster => existsb (DisasterType_eqb (disasterType disaster)) types)
             allDisasters
  | None => allDisasters
  end.

Definition filterByAlertTypes (alertTypes : option (list AlertType))
           (allDisasters : list Disaster) : list Disaster :=
  match nonEmpty alertTypes with
  | Some alertTypes =>
      filter (fun disaster => existsb (AlertType_eqb (alertType disaster)) alertTypes)
             allDisasters
  | None => allDisasters
  end.

Definition filterByLocation (options : Options.t) (allDisasters : list Disaster)
  : list Disaster :=
  match truthy (Options.latitude options), truthy (Options.longitude options),
        truthy (Options.radius options) with
  | Some lat, Some lon, Some radius => filter (withinRadius lat lon radius) allDisasters
  | _, _, _ => allDisasters
  end.

Definition getAllDisasters (w : World) (options : Options.t) : Promise (list Disaster) :=
  try_catch
    (let timeRange :=
       mapTimeRangeToValue
         (match Options.timeRange options with
          | Some s => if s =? EmptyString then "24h" else s
          | None => "24h"
          end) in
     await fetched <-
       Promise_all3
         (Usgs.fetchEarthquakeData (usgs w) timeRange)
         (Noaa.fetchWeatherAlerts (noaa w) None)
         (match truthy (Options.latitude options), truthy (Options.longitude options) with
          | Some lat, Some lon =>
              Owm.fetchWeatherOneCall
                (Owm.OWM_API_KEY (env_OPENWEATHERMAP_API_KEY w) (env_OWM_API_KEY w))
                (owm_onecall w) lat lon
          | _, _ => resolve []
          end);
     let '(earthquakes, weatherAlerts, weatherData) := fetched in
     let allDisasters := earthquakes ++ weatherAlerts ++ weatherData in
     let allDisasters := filterByTypes (Options.types options) allDisasters in
     let allDisasters := filterByAlertTypes (Options.alertTypes options) allDisasters in
     let allDisasters := filterByLocation options allDisasters in
     resolve allDisasters)
    (fun _ => reject "Failed to fetch disaster data").

End Api.

(** ** server/api/usgs.ts and server/api/noaa.ts: filters by location

    Both files carry their own [calculateDistance], a copy, letter for
    letter, of the one of index.ts; the filters below use that one. *)

Module ByLocation.
Import Api.

(** The callback of [filterEarthquakesByLocation]: no test of the text. *)
Definition earthquakeWithin (lat lon radiusKm : Q) (earthquake : Disaster) : bool :=
  let distance :=
    calculateDistance (Real (Q2R lat)) (Real (Q2R lon))
                      (toReal (parseFloat (latitude earthquake)))
                      (toReal (parseFloat (longitude earthquake))) in
  leq distance (Q2R radiusKm).

(** The callback of [filterAlertsByLocation]: alerts without coordinates are
    skipped. *)
Definition alertWithin (lat lon radiusKm : Q) (alert : Disaster) : bool :=
  if is_empty (latitude alert) || is_empty (longitude alert) then false
  else
    let distance :=
      calculateDistance (Real (Q2R lat)) (Real (Q2R lon))
                        (toReal (parseFloat (latitude alert)))
                        (toReal (parseFloat (longitude alert))) in
    leq distance (Q2R radiusKm).

(** [radiusKm: number = 100]: an absent argument is 100. *)
Definition orDefault (radiusKm : option Q) : Q :=
  match radiusKm with Some r => r | None => 100 end.

Definition filterEarthquakesByLocation (earthquakes : list Disaster)
           (latitude longitude : Q) (radiusKm : option Q) : list Disaster :=
  filter (earthquakeWithin latitude longitude (orDefault radiusKm)) earthquakes.

Definition filterAlertsByLocation (alerts : list Disaster)
           (latitude longitude : Q) (radiusKm : option Q) : list Disaster :=
  filter (alertWithin latitude longitude (orDefault radiusKm)) alerts.

(** index.ts.  The three fetches are awaited one after the other; of
    [options] the function reads [types], [alertTypes] and [timeRange]. *)
Definition getDisastersByLocation (w : World) (latitude longitude : Q)
           (radius : option Q) (options : Options.t) : Promise (list Disaster) :=
  try_catch
    (let radius := orDefault radius in
     let timeRange :=
       mapTimeRangeToValue
         (match Options.timeRange options with
          | Some s => if s =? EmptyString then "24h" else s
          | None => "24h"
          end) in
     await earthquakes <- Usgs.fetchEarthquakeData (usgs w) timeRange;
     await weatherAlerts <- Noaa.fetchWeatherAlerts (noaa w) None;
     await weatherData <-
       Owm.fetchWeatherOneCall
         (Owm.OWM_API_KEY (env_OPENWEATHERMAP_API_KEY w) (env_OWM_API_KEY w))
         (owm_onecall w) latitude longitude;
     let filteredEarthquakes :=
       filterEarthquakesByLocation earthquakes latitude longitude (Some radius) in
     let filteredWeatherAlerts :=
       filterAlertsByLocation weatherAlerts latitude longitude (Some radius) in
     let allDisasters := filteredEarthquakes ++ filteredWeatherAlerts ++ weatherData in
     let allDisasters := filterByTypes (Options.types options) allDisasters in
     let allDisasters := filterByAlertTypes (Options.alertTypes options) allDisasters in
     resolve allDisasters)
    (fun _ => reject "Failed to fetch disaster data for location").

(** The result of [getDisasterStats]. *)
Record Stats := {
  warnings : nat;
  watches : nat;
  advisories : nat;
  affectedAreas : nat
}.

(** [new Set(strings)]: the distinct strings; only its size is read. *)
Definition Set_of (l : list string) : list string := nodup string_dec l.

Definition getDisasterStats (disasters : list Disaster) : Stats :=
  let warnings :=
    List.length (filter (fun d => AlertType_eqb (alertType d) Warning) disasters) in
  let watches :=
    List.length (filter (fun d => AlertType_eqb (alertType d) Watch) disasters) in
  let advisories :=
    List.length (filter (fun d => AlertType_eqb (alertType d) Advisory) disasters) in
  let uniqueAreas := Set_of (map location disasters) in
  {| warnings := warnings;
     watches := watches;
     advisories := advisories;
     affectedAreas := List.length uniqueAreas |}.

End ByLocation.

(** ** server/routes.ts: the two routes that read the whole collection *)

Module Routes.
Import Api ByLocation.

(** What a handler sends: [res.json(body)], or
    [res.status(code).json({ message })]. *)
Inductive Response (A : Type) :=
| Json (body : A)
| Status (code : Z) (message : string).
Arguments Status {A} code message.

(** [getAllDisasters()]: the argument defaults to the empty object. *)
Definition noOptions : Options.t :=
  {| Options.types := None; Options.alertTypes := None; Options.timeRange := None;
     Options.latitude := None; Options.longitude := None; Options.radius := None |}.

(** GET /api/disasters/stats *)
Definition statsRoute (w : World) : list Call * Response Stats :=
  match getAllDisasters w noOptions with
  | (calls, Ok disasters) =>
      let stats := getDisasterStats disasters in
      (calls, Json stats)
  | (calls, Throw _) => (calls, Status 500 "Failed to fetch disaster statistics")
  end.

Section DisasterById.

(** The text of an identifier.  The identifiers of the OpenWeatherMap adapter
    are template strings that print numbers; how a number prints is left
    open: [template] is any rendering of these identifiers. *)
Variable template : ident -> string.

Definition idText (i : ident) : string :=
  match i with
  | NativeId s => s
  | other => template other
  end.

(** GET /api/disasters/:id *)
Definition disasterRoute (w : World) (id_param : string)
  : list Call * Response Disaster :=
  match getAllDisasters w noOptions with
  | (calls, Ok disasters) =>
      match find (fun d => idText (id d) =? id_param) disasters with
      | None => (calls, Status 404 "Disaster not found")
      | Some disaster => (calls, Json disaster)
      end
  | (calls, Throw _) => (calls, Status 500 "Failed to fetch disaster details")
  end.

End DisasterById.

End Routes.

(** * Properties *)

(** ** Comparisons and alert levels *)

Lemma geq_true (a b : Q) : geq a b = true <-> b <= a.
Proof. unfold geq. apply Qle_bool_iff. Qed.

Lemma geq_false (a b : Q) : geq a b = false <-> a < b.
Proof.
  unfold geq. split; intro H.
  - apply Qnot_le_lt. intro Hle. apply Qle_bool_iff in Hle. congruence.
  - destruct (Qle_bool b a) eqn:E; [|reflexivity].
    apply Qle_bool_iff in E. exfalso. apply (Qlt_not_le _ _ H E).
Qed.

Lemma truthyQ_false (q : Q) : truthyQ q = false <-> q == 0.
Proof.
  unfold truthyQ. rewrite negb_false_iff. apply Qeq_bool_iff.
Qed.

Lemma truthyQ_true (q : Q) : truthyQ q = true <-> ~ q == 0.
Proof.
  unfold truthyQ. rewrite negb_true_iff. split; intro H.
  - intro E. apply Qeq_bool_iff in E. congruence.
  - destruct (Qeq_bool q 0) eqn:E; [|reflexivity].
    apply Qeq_bool_iff in E. contradiction.
Qed.

(** Case analysis on a comparison of the code, keeping its meaning. *)
Ltac case_geq a b :=
  let E := fresh "E" in
  destruct (geq a b) eqn:E;
  [ apply geq_true in E | apply geq_false in E ].

(** ** Seismic classification *)

Section Seismic.
Import Usgs.

(** The classification as the specification words it. *)
Definition seismic_rule (m : Q) (a : AlertType) : Prop :=
  (5.0 <= m -> a = Warning) /\
  (4.0 <= m /\ m < 5.0 -> a = Watch) /\
  (~ 4.0 <= m -> a = Advisory).

Lemma magnitudeAlertType_rule (m : Q) : seismic_rule m (magnitudeAlertType m).
Proof.
  unfold seismic_rule, magnitudeAlertType,
    MAGNITUDE_WARNING_THRESHOLD, MAGNITUDE_WATCH_THRESHOLD.
  case_geq m 5.0; [|case_geq m 4.0]; repeat split; intros; try reflexivity; lra.
Qed.

Lemma mapFeature_alertType (feature : USGSFeature) :
  alertType (mapFeature feature) = magnitudeAlertType (mag feature).
Proof. unfold mapFeature. destruct (coordinates feature) as [[? ?] ?]. reflexivity. Qed.

(** A feature of the feed with a given magnitude. *)
Definition quake (m : Q) (lon lat : Q) : USGSFeature :=
  {| feature_id := "us7000abcd"; mag := m; place := "10km N of Somewhere";
     coordinates := (lon, lat, 10) |}.

(** C6: every feature of the seismic feed yields one event, in feed order,
    whose alert level is Warning from magnitude 5.0 on, Watch from 4.0 up to
    (not including) 5.0, and Advisory below 4.0; the two thresholds belong to
    the higher level: 5.0 gives Warning, 4.9999 and 4.0 give Watch, 3.9999 and
    0 give Advisory. *)
Theorem seismic_classification :
  (forall data : USGSResponse,
      Forall2 (fun feature d => seismic_rule (mag feature) (alertType d)
                                /\ disasterType d = Earthquake)
              (features data) (mapUSGSResponseToDisasters data)) /\
  map alertType
      (mapUSGSResponseToDisasters
         {| features := [quake 5.0 0 0; quake 4.9999 0 0; quake 4.0 0 0;
                         quake 3.9999 0 0; quake 0 0 0] |})
  = [Warning; Watch; Watch; Advisory; Advisory].
Proof.
  split; [|reflexivity].
  intros [fs]. unfold mapUSGSResponseToDisasters. simpl.
  induction fs as [|f fs IH]; simpl; constructor; auto.
  split.
  - rewrite mapFeature_alertType. apply magnitudeAlertType_rule.
  - unfold mapFeature. destruct (coordinates f) as [[? ?] ?]. reflexivity.
Qed.

End Seismic.

(** ** WeatherCondition adapter: escalation rules *)

Section Escalation.
Import Owm.

(** The wind-derived and rain-derived levels as the specification words them. *)
Definition windLevel (speed : Q) : AlertType :=
  if Qle_bool 17.2 speed then Warning
  else if Qle_bool 10.8 speed then Watch
  else Advisory.

Definition rainLevel (rain3h : Q) : AlertType :=
  if Qle_bool 50 rain3h then Warning
  else if Qle_bool 25 rain3h then Watch
  else Advisory.

(** The 3-hour rainfall of a payload; an absent amount is no rain. *)
Definition rain3h (data : OWMCurrentWeather) : Q :=
  match rain data with
  | Some r => match rain_3h r with Some q => q | None => 0 end
  | None => 0
  end.

Lemma windAlertType_level (speed : Q) : windAlertType speed Advisory = windLevel speed.
Proof. reflexivity. Qed.

(** What the second [if] block computes: the rain-derived level replaces the
    level of the wind rule whenever it is not Advisory. *)
Lemma rainAlertType_level (data : OWMCurrentWeather) (a : AlertType) :
  rainAlertType (rain data) a =
  match rainLevel (rain3h data) with
  | Advisory => a
  | level => level
  end.
Proof.
  unfold rainAlertType, rain3h, rainLevel, RAIN_WARNING_THRESHOLD, RAIN_WATCH_THRESHOLD, geq.
  destruct (rain data) as [[r1 [r3|]]|]; simpl; try reflexivity.
  destruct (truthyQ r3) eqn:T; [destruct (Qle_bool 50 r3), (Qle_bool 25 r3); reflexivity|].
  apply truthyQ_false in T.
  destruct (Qle_bool 50 r3) eqn:E1; [apply Qle_bool_iff in E1; lra|].
  destruct (Qle_bool 25 r3) eqn:E2; [apply Qle_bool_iff in E2; lra|].
  reflexivity.
Qed.

(** The level of the event of [analyzeCurrentWeather], for every payload with
    a severe condition code. *)
Lemma analyzeCurrentWeather_level (data : OWMCurrentWeather) :
  find isSevere (weather data) <> None ->
  map alertType (analyzeCurrentWeather data) =
  [ match rainLevel (rain3h data) with
    | Advisory => windLevel (wind_speed data)
    | level => level
    end ].
Proof.
  intro H. unfold analyzeCurrentWeather.
  destruct (find isSevere (weather data)); [|congruence].
  simpl. rewrite rainAlertType_level, windAlertType_level. reflexivity.
Qed.

(** The level is the maximum of the two but in one case: a Warning of the
    wind rule followed by a Watch of the rainfall rule. *)
Lemma analyzeCurrentWeather_max (data : OWMCurrentWeather) :
  find isSevere (weather data) <> None ->
  ~ (windLevel (wind_speed data) = Warning /\ rainLevel (rain3h data) = Watch) ->
  map alertType (analyzeCurrentWeather data) =
  [ alert_max (windLevel (wind_speed data)) (rainLevel (rain3h data)) ].
Proof.
  intros H Hn. rewrite analyzeCurrentWeather_level by assumption.
  destruct (windLevel (wind_speed data)), (rainLevel (rain3h data));
    try reflexivity.
  exfalso. apply Hn. split; reflexivity.
Qed.

(** A thunderstorm with wind of 17.2 m/s and 30 mm of rain in three hours. *)
Definition storm_with_rain : OWMCurrentWeather :=
  {| coord_lon := 77.2; coord_lat := 28.6;
     weather := [ {| weather_id := 211; main := "Thunderstorm";
                     description := "thunderstorm" |} ];
     wind_speed := 17.2;
     rain := Some {| rain_1h := None; rain_3h := Some 30 |};
     dt := 1700000000; city_id := 1273294; name := "Delhi"; country := "IN" |}.

(** C1: at wind speed 17.2 m/s with 30 mm of rain in three hours the wind rule
    gives Warning and the rainfall rule gives Watch, whose maximum is
    Warning; the event of [analyzeCurrentWeather] carries Watch: the
    rainfall rule, evaluated second, assigns its level over the Warning. *)
Theorem current_weather_rain_lowers_wind_warning :
  windLevel (wind_speed storm_with_rain) = Warning /\
  rainLevel (rain3h storm_with_rain) = Watch /\
  alert_max (windLevel (wind_speed storm_with_rain))
            (rainLevel (rain3h storm_with_rain)) = Warning /\
  map alertType (analyzeCurrentWeather storm_with_rain) = [Watch].
Proof. repeat split. Qed.

(** The examples of the specification on which the code agrees with it. *)
Lemma analyzeCurrentWeather_examples :
  let payload speed rain :=
    {| coord_lon := 0; coord_lat := 0;
       weather := [ {| weather_id := 781; main := "Tornado"; description := "tornado" |} ];
       wind_speed := speed; rain := rain;
       dt := 0; city_id := 0; name := "Moore"; country := "US" |} in
  let rain3 q := Some {| rain_1h := None; rain_3h := Some q |} in
  map alertType (analyzeCurrentWeather (payload 17.2 None)) = [Warning] /\
  map alertType (analyzeCurrentWeather (payload 10.8 None)) = [Watch] /\
  map alertType (analyzeCurrentWeather (payload 5 (rain3 50))) = [Warning] /\
  map alertType (analyzeCurrentWeather (payload 5 (rain3 10))) = [Advisory].
Proof. repeat split. Qed.

(** The forecast rule as the specification words it: some of the next 12
    hourly entries forecasts rainfall of 25/3 mm or more. *)
Definition heavyRainAhead (data : OWMOneCall) : Prop :=
  exists hours hour r,
    hourly data = Some hours /\
    In hour (firstn 12 hours) /\ hour_rain hour = Some r /\ 25 / 3 <= r.

Lemma heavyRainHour_spec (hour : Hourly) :
  heavyRainHour hour = true <-> exists r, hour_rain hour = Some r /\ 25 / 3 <= r.
Proof.
  unfold heavyRainHour, RAIN_WATCH_THRESHOLD. split.
  - destruct (hour_rain hour) as [r|]; [|discriminate].
    intro H. apply andb_true_iff in H as [_ H]. apply geq_true in H. eauto.
  - intros [r [-> H]]. apply andb_true_iff. split.
    + apply truthyQ_true. intro E. rewrite E in H. revert H. apply Qlt_not_le. reflexivity.
    + apply geq_true. exact H.
Qed.

Lemma forecastAlertType_heavy (data : OWMOneCall) (a : AlertType) :
  heavyRainAhead data -> forecastAlertType (hourly data) a = Watch.
Proof.
  intros (hours & hour & r & Hh & Hin & Hr & Hle).
  unfold forecastAlertType. rewrite Hh.
  assert (E : existsb heavyRainHour (firstn 12 hours) = true).
  { apply existsb_exists. exists hour. split; [exact Hin|].
    apply heavyRainHour_spec. eauto. }
  rewrite E. reflexivity.
Qed.

(** Under a heavy-rain forecast the event of [analyzeWeatherConditions] is a
    Watch, whatever the wind rule produced. *)
Lemma analyzeWeatherConditions_heavy (data : OWMOneCall) :
  find isSevere (current_weather (current data)) <> None ->
  heavyRainAhead data ->
  map alertType (analyzeWeatherConditions data) = [Watch].
Proof.
  intros H Hheavy. unfold analyzeWeatherConditions.
  destruct (find isSevere (current_weather (current data))); [|congruence].
  simpl. rewrite forecastAlertType_heavy by assumption. reflexivity.
Qed.

(** A thunderstorm with wind of 20 m/s and 10 mm of rain forecast for the
    next hour. *)
Definition storm_with_forecast : OWMOneCall :=
  {| lat := 28.6; lon := 77.2; timezone := "Asia/Kolkata";
     current := {| current_dt := 1700000000; current_wind_speed := 20;
                   current_weather := [ {| weather_id := 211; main := "Thunderstorm";
                                           description := "thunderstorm" |} ] |};
     hourly := Some [ {| hour_rain := Some 10 |} ];
     alerts := None |}.

(** C3: with wind of 20 m/s the wind rule gives Warning, and an hourly
    forecast of 10 mm (25/3 mm or more) is among the next 12 entries; the
    event of [analyzeWeatherConditions] carries Watch, not Warning: the
    forecast rule assigns Watch over the level of the wind rule. *)
Theorem forecast_rain_lowers_wind_warning :
  windLevel (current_wind_speed (current storm_with_forecast)) = Warning /\
  heavyRainAhead storm_with_forecast /\
  map alertType (analyzeWeatherConditions storm_with_forecast) = [Watch].
Proof.
  split; [reflexivity|]. split; [|reflexivity].
  exists [ {| hour_rain := Some 10 |} ], {| hour_rain := Some 10 |}, 10.
  repeat split; simpl; auto. unfold Qle; simpl; lia.
Qed.

End Escalation.

(** ** Adapters: what a fetch settles to *)

Definition failed {A} (response : upstream A) : Prop :=
  match response with Delivered _ => False | _ => True end.

Lemma fetchEarthquakeData_settles feed timeRange :
  Usgs.fetchEarthquakeData feed timeRange =
  ([FetchEarthquakeData timeRange],
   match feed (Usgs.endpoint timeRange) with
   | Delivered data => Ok (Usgs.mapUSGSResponseToDisasters data)
   | _ => Throw "Failed to fetch earthquake data"
   end).
Proof.
  unfold Usgs.fetchEarthquakeData.
  destruct (feed (Usgs.endpoint timeRange)); reflexivity.
Qed.

Lemma fetchWeatherAlerts_settles feed :
  Noaa.fetchWeatherAlerts feed None =
  ([FetchWeatherAlerts None],
   match feed None with
   | Delivered data =>
       match Noaa.mapNOAAResponseToDisasters data with
       | Ok alerts => Ok alerts
       | Throw _ => Throw "Failed to fetch weather alerts"
       end
   | _ => Throw "Failed to fetch weather alerts"
   end).
Proof.
  unfold Noaa.fetchWeatherAlerts.
  destruct (feed None) as [data| | |]; try reflexivity.
  simpl. destruct (Noaa.mapNOAAResponseToDisasters data); reflexivity.
Qed.

Lemma fetchWeatherOneCall_settles key feed lat lon :
  Owm.fetchWeatherOneCall key feed lat lon =
  ([FetchWeatherOneCall lat lon],
   Ok (if key =? EmptyString then []
       else match feed lat lon with
            | Delivered data =>
                Owm.processWeatherAlerts data ++ Owm.analyzeWeatherConditions data
            | _ => []
            end)).
Proof.
  unfold Owm.fetchWeatherOneCall.
  destruct (key =? EmptyString); [reflexivity|].
  destruct (feed lat lon); reflexivity.
Qed.

Lemma fetchCurrentWeather_settles key feed lat lon :
  Owm.fetchCurrentWeather key feed lat lon =
  ([FetchCurrentWeather lat lon],
   Ok (if key =? EmptyString then []
       else match feed lat lon with
            | Delivered data => Owm.analyzeCurrentWeather data
            | _ => []
            end)).
Proof.
  unfold Owm.fetchCurrentWeather.
  destruct (key =? EmptyString); [reflexivity|].
  destruct (feed lat lon); reflexivity.
Qed.

(** C9: with neither environment variable set the key is the empty string,
    and then [fetchCurrentWeather] and [fetchWeatherOneCall] resolve to the
    empty list for every feed, latitude and longitude; they do not reject. *)
Theorem missing_api_key_gives_empty_list :
  Owm.OWM_API_KEY None None = EmptyString /\
  forall feedCurrent feedOneCall (latitude longitude : Q),
    snd (Owm.fetchCurrentWeather (Owm.OWM_API_KEY None None) feedCurrent latitude longitude)
      = Ok [] /\
    snd (Owm.fetchWeatherOneCall (Owm.OWM_API_KEY None None) feedOneCall latitude longitude)
      = Ok [].
Proof.
  split; [reflexivity|]. intros.
  rewrite fetchCurrentWeather_settles, fetchWeatherOneCall_settles. split; reflexivity.
Qed.

(** ** Aggregation: what [getAllDisasters] settles to *)

Section Aggregation.
Import Api.

(** The time range handed to the seismic adapter. *)
Definition timeRangeOf (options : Options.t) : string :=
  mapTimeRangeToValue
    (match Options.timeRange options with
     | Some s => if s =? EmptyString then "24h" else s
     | None => "24h"
     end).

(** The third promise of the [Promise.all]. *)
Definition weatherPromise (w : World) (options : Options.t) : Promise (list Disaster) :=
  match truthy (Options.latitude options), truthy (Options.longitude options) with
  | Some lat, Some lon =>
      Owm.fetchWeatherOneCall
        (Owm.OWM_API_KEY (env_OPENWEATHERMAP_API_KEY w) (env_OWM_API_KEY w))
        (owm_onecall w) lat lon
  | _, _ => resolve []
  end.

(** The three filters in the order of the code. *)
Definition filtered (options : Options.t) (allDisasters : list Disaster) : list Disaster :=
  filterByLocation options
    (filterByAlertTypes (Options.alertTypes options)
       (filterByTypes (Options.types options) allDisasters)).

Lemma weatherPromise_resolves w options :
  exists weatherData, snd (weatherPromise w options) = Ok weatherData.
Proof.
  unfold weatherPromise.
  destruct (truthy (Options.latitude options)), (truthy (Options.longitude options));
    try (eexists; reflexivity).
  rewrite fetchWeatherOneCall_settles. eexists; reflexivity.
Qed.

Lemma getAllDisasters_calls w options :
  fst (getAllDisasters w options) =
  FetchEarthquakeData (timeRangeOf options) :: FetchWeatherAlerts None ::
  fst (weatherPromise w options).
Proof.
  unfold getAllDisasters. fold (timeRangeOf options). fold (weatherPromise w options).
  rewrite fetchEarthquakeData_settles, fetchWeatherAlerts_settles.
  destruct (weatherPromise w options) as [calls r].
  unfold Promise_all3, bind, try_catch, reject, resolve. simpl.
  destruct (usgs w (Usgs.endpoint (timeRangeOf options)));
    destruct (noaa w None) as [alerts| | |];
    try destruct (Noaa.mapNOAAResponseToDisasters alerts);
    destruct r; simpl; rewrite ?app_nil_r; reflexivity.
Qed.

Lemma getAllDisasters_result w options :
  snd (getAllDisasters w options) =
  match snd (Usgs.fetchEarthquakeData (usgs w) (timeRangeOf options)),
        snd (Noaa.fetchWeatherAlerts (noaa w) None),
        snd (weatherPromise w options) with
  | Ok earthquakes, Ok weatherAlerts, Ok weatherData =>
      Ok (filtered options (earthquakes ++ weatherAlerts ++ weatherData))
  | _, _, _ => Throw "Failed to fetch disaster data"
  end.
Proof.
  unfold getAllDisasters. fold (timeRangeOf options). fold (weatherPromise w options).
  destruct (Usgs.fetchEarthquakeData (usgs w) (timeRangeOf options)) as [c1 [a|e1]];
    destruct (Noaa.fetchWeatherAlerts (noaa w) None) as [c2 [b|e2]];
    destruct (weatherPromise w options) as [c3 [c|e3]]; reflexivity.
Qed.

End Aggregation.

(** ** Aggregation: failures of the feeds *)

Section Failures.
Import Api.

(** The seismic feed or the weather-alert feed fails for this call: the
    request fails, or the body is one the mapping raises on. *)
Definition seismic_or_alert_feed_fails (w : World) (options : Options.t) : Prop :=
  failed (usgs w (Usgs.endpoint (timeRangeOf options))) \/
  failed (noaa w None) \/
  (exists data e, noaa w None = Delivered data /\
                  Noaa.mapNOAAResponseToDisasters data = Throw e).

(** The WeatherCondition feed is queried by this call, and fails. *)
Definition weather_feed_fails (w : World) (options : Options.t) : Prop :=
  exists lat lon,
    truthy (Options.latitude options) = Some lat /\
    truthy (Options.longitude options) = Some lon /\
    Owm.OWM_API_KEY (env_OPENWEATHERMAP_API_KEY w) (env_OWM_API_KEY w) <> EmptyString /\
    failed (owm_onecall w lat lon).

(** The contract as the specification states it, for one call. *)
Definition all_or_nothing (w : World) (options : Options.t) : Prop :=
  seismic_or_alert_feed_fails w options \/ weather_feed_fails w options ->
  exists msg, snd (getAllDisasters w options) = Throw msg.

(** A query around Delhi, without a radius. *)
Definition delhi_query : Options.t :=
  {| Options.types := None; Options.alertTypes := None; Options.timeRange := Some "24h";
     Options.latitude := Some (Num 28.6); Options.longitude := Some (Num 77.2);
     Options.radius := None |}.

(** Two feeds deliver (one earthquake, no alert); the WeatherCondition feed
    is unreachable. *)
Definition world_weather_down : World :=
  {| env_OPENWEATHERMAP_API_KEY := Some "0123456789abcdef";
     env_OWM_API_KEY := None;
     usgs := fun _ => Delivered {| Usgs.features := [quake 4.5 77.0 28.0] |};
     noaa := fun _ => Delivered {| Noaa.features := [] |};
     owm_weather := fun _ _ => NetworkFailure;
     owm_onecall := fun _ _ => NetworkFailure |}.

(** The seismic feed answers with a server error; the others deliver. *)
Definition world_seismic_down : World :=
  {| env_OPENWEATHERMAP_API_KEY := Some "0123456789abcdef";
     env_OWM_API_KEY := None;
     usgs := fun _ => BadStatus 503;
     noaa := fun _ => Delivered {| Noaa.features := [] |};
     owm_weather := fun _ _ => NetworkFailure;
     owm_onecall := fun _ _ => Delivered storm_with_forecast |}.

(** C2, as stated, fails: with the WeatherCondition feed unreachable the call
    still returns the earthquake of the seismic feed. *)
Lemma weather_failure_gives_partial_result :
  weather_feed_fails world_weather_down delhi_query /\
  snd (getAllDisasters world_weather_down delhi_query)
    = Ok [Usgs.mapFeature (quake 4.5 77.0 28.0)] /\
  ~ all_or_nothing world_weather_down delhi_query.
Proof.
  assert (F : weather_feed_fails world_weather_down delhi_query).
  { exists 28.6, 77.2. repeat split. discriminate. }
  assert (R : snd (getAllDisasters world_weather_down delhi_query)
              = Ok [Usgs.mapFeature (quake 4.5 77.0 28.0)]) by reflexivity.
  repeat split; try assumption.
  intro H. destruct H as [msg Hm]; [right; exact F|].
  rewrite R in Hm. discriminate.
Qed.

(** C2 (amended): a failure of the seismic feed or of the weather-alert feed
    makes the whole call fail with the error of [getAllDisasters].  A failure
    of the WeatherCondition feed does not: its adapter catches it and
    contributes the empty list, so the call returns the filtered events of
    the other two feeds. *)
Theorem upstream_failure_policy (w : World) (options : Options.t) :
  (seismic_or_alert_feed_fails w options ->
   snd (getAllDisasters w options) = Throw "Failed to fetch disaster data") /\
  (weather_feed_fails w options ->
   forall quakes alerts weatherAlerts,
     usgs w (Usgs.endpoint (timeRangeOf options)) = Delivered quakes ->
     noaa w None = Delivered alerts ->
     Noaa.mapNOAAResponseToDisasters alerts = Ok weatherAlerts ->
     snd (getAllDisasters w options) =
     Ok (filtered options
           (Usgs.mapUSGSResponseToDisasters quakes ++ weatherAlerts ++ []))).
Proof.
  split.
  - intro H. rewrite getAllDisasters_result.
    rewrite fetchEarthquakeData_settles, fetchWeatherAlerts_settles. simpl.
    destruct (weatherPromise_resolves w options) as [wd ->].
    destruct H as [H | [H | (data & e & H1 & H2)]].
    + destruct (usgs w (Usgs.endpoint (timeRangeOf options))); [destruct H| | |];
        reflexivity.
    + destruct (noaa w None); [destruct H| | |];
        destruct (usgs w (Usgs.endpoint (timeRangeOf options))); reflexivity.
    + rewrite H1, H2.
      destruct (usgs w (Usgs.endpoint (timeRangeOf options))); reflexivity.
  - intros (lat & lon & Hlat & Hlon & Hkey & Hfail) quakes alerts weatherAlerts Hq Ha Hm.
    rewrite getAllDisasters_result.
    rewrite fetchEarthquakeData_settles, fetchWeatherAlerts_settles. simpl.
    rewrite Hq, Ha, Hm.
    unfold weatherPromise. rewrite Hlat, Hlon, fetchWeatherOneCall_settles. simpl.
    apply String.eqb_neq in Hkey. rewrite Hkey.
    destruct (owm_onecall w lat lon); [destruct Hfail| | |]; reflexivity.
Qed.

Lemma upstream_failure_policy_witness :
  snd (getAllDisasters world_seismic_down delhi_query)
    = Throw "Failed to fetch disaster data" /\
  snd (getAllDisasters world_weather_down delhi_query)
    = Ok (filtered delhi_query
            (Usgs.mapUSGSResponseToDisasters
               {| Usgs.features := [quake 4.5 77.0 28.0] |} ++ [] ++ [])).
Proof.
  split.
  - apply (proj1 (upstream_failure_policy world_seismic_down delhi_query)).
    left. exact I.
  - apply (proj2 (upstream_failure_policy world_weather_down delhi_query))
      with (alerts := {| Noaa.features := [] |}).
    + exists 28.6, 77.2. repeat split. discriminate.
    + reflexivity.
    + reflexivity.
    + reflexivity.
Defined.

End Failures.

(** ** Great-circle distance *)

Section Distance.
Import Api.
Local Open Scope R_scope.

(** In this section the arithmetic is that of the real numbers. *)
Ltac lra := Lra.lra.
Ltac nra := Lra.nra.

(** The quantity [a] of [calculateDistance]. *)
Definition haversine (lat1 lon1 lat2 lon2 : R) : R :=
  sin ((lat2 - lat1) * PI / 180 / 2) * sin ((lat2 - lat1) * PI / 180 / 2) +
  cos (lat1 * PI / 180) * cos (lat2 * PI / 180) *
  sin ((lon2 - lon1) * PI / 180 / 2) * sin ((lon2 - lon1) * PI / 180 / 2).

Lemma calculateDistance_haversine lat1 lon1 lat2 lon2 :
  calculateDistance (Real lat1) (Real lon1) (Real lat2) (Real lon2) =
  match Math_sqrt (haversine lat1 lon1 lat2 lon2),
        Math_sqrt (1 - haversine lat1 lon1 lat2 lon2) with
  | Real y, Real x => Real (6371 * (2 * Math_atan2 y x))
  | _, _ => RNaN
  end.
Proof. reflexivity. Qed.

Lemma sin_half_swap (x y : R) :
  sin ((x - y) * PI / 180 / 2) = - sin ((y - x) * PI / 180 / 2).
Proof. rewrite <- sin_neg. f_equal. lra. Qed.

Lemma haversine_sym lat1 lon1 lat2 lon2 :
  haversine lat1 lon1 lat2 lon2 = haversine lat2 lon2 lat1 lon1.
Proof.
  unfold haversine.
  rewrite (sin_half_swap lat2 lat1), (sin_half_swap lon2 lon1). ring.
Qed.

Lemma haversine_same lat lon : haversine lat lon lat lon = 0.
Proof.
  unfold haversine.
  replace ((lat - lat) * PI / 180 / 2) with 0 by lra.
  replace ((lon - lon) * PI / 180 / 2) with 0 by lra.
  rewrite sin_0. ring.
Qed.

(** Decimal degrees of a point of the globe. *)
Definition valid_latitude (lat : R) : Prop := -90 <= lat <= 90.
Definition valid_longitude (lon : R) : Prop := -180 <= lon <= 180.

Lemma cos_latitude_nonneg lat : valid_latitude lat -> 0 <= cos (lat * PI / 180).
Proof.
  intros [H1 H2]. pose proof PI_RGT_0.
  apply cos_ge_0; nra.
Qed.

Lemma cos_product_bound (p q : R) :
  cos p * cos q <= cos ((q - p) / 2) * cos ((q - p) / 2).
Proof.
  set (u := (p + q) / 2). set (v := (q - p) / 2).
  replace p with (u - v) by (unfold u, v; lra).
  replace q with (u + v) at 1 by (unfold u, v; lra).
  rewrite cos_minus, cos_plus.
  pose proof (sin2_cos2 u) as Hu. pose proof (sin2_cos2 v) as Hv.
  unfold Rsqr in Hu, Hv.
  nra.
Qed.

(** For two points of the globe [a] lies in [0, 1]: both square roots of
    [calculateDistance] are taken of non-negative numbers. *)
Lemma haversine_range lat1 lon1 lat2 lon2 :
  valid_latitude lat1 -> valid_latitude lat2 ->
  0 <= haversine lat1 lon1 lat2 lon2 <= 1.
Proof.
  intros V1 V2. unfold haversine.
  apply cos_latitude_nonneg in V1 as C1.
  apply cos_latitude_nonneg in V2 as C2.
  pose proof (cos_product_bound (lat1 * PI / 180) (lat2 * PI / 180)) as B.
  replace ((lat2 * PI / 180 - lat1 * PI / 180) / 2)
    with ((lat2 - lat1) * PI / 180 / 2) in B by lra.
  pose proof (sin2_cos2 ((lat2 - lat1) * PI / 180 / 2)) as S1.
  pose proof (sin2_cos2 ((lon2 - lon1) * PI / 180 / 2)) as S2.
  unfold Rsqr in S1, S2.
  set (sv := sin ((lat2 - lat1) * PI / 180 / 2)) in *.
  set (cv := cos ((lat2 - lat1) * PI / 180 / 2)) in *.
  set (s := sin ((lon2 - lon1) * PI / 180 / 2)) in *.
  set (c := cos ((lon2 - lon1) * PI / 180 / 2)) in *.
  set (c1 := cos (lat1 * PI / 180)) in *.
  set (c2 := cos (lat2 * PI / 180)) in *.
  assert (0 <= c1 * c2) by nra.
  assert (0 <= s * s <= 1) by nra.
  split; nra.
Qed.

Lemma Math_sqrt_ok x : 0 <= x -> Math_sqrt x = Real (sqrt x).
Proof.
  intro H. unfold Math_sqrt. destruct (Rle_dec 0 x); [reflexivity|contradiction].
Qed.

Lemma Math_atan2_nonneg y x : 0 <= y -> 0 <= x -> 0 <= Math_atan2 y x.
Proof.
  intros Hy Hx. unfold Math_atan2. pose proof PI_RGT_0.
  destruct (Rlt_dec 0 x).
  - rewrite <- atan_0. destruct (Req_dec y 0) as [->|Hne].
    + replace (0 / x) with 0 by (field; lra). lra.
    + left. apply atan_increasing. apply Rdiv_lt_0_compat; lra.
  - destruct (Rlt_dec x 0); [lra|].
    destruct (Rlt_dec 0 y); [lra|].
    destruct (Rlt_dec y 0); lra.
Qed.

(** The angle of the point (cos t, sin t), for an angle of the first quadrant. *)
Lemma Math_atan2_sin_cos t : 0 <= t < PI / 2 -> Math_atan2 (sin t) (cos t) = t.
Proof.
  intros [H0 H1]. unfold Math_atan2.
  assert (0 < cos t) by (apply cos_gt_0; lra).
  destruct (Rlt_dec 0 (cos t)); [|contradiction].
  fold (tan t). apply atan_tan. lra.
Qed.

(** Two points of the equator: the distance is the arc of the difference of
    longitude on a sphere of radius 6371 km. *)
Lemma calculateDistance_equator (lon : R) :
  0 <= lon < 180 ->
  calculateDistance (Real 0) (Real lon) (Real 0) (Real 0) = Real (6371 * (lon * PI / 180)).
Proof.
  intros [H0 H1]. pose proof PI_RGT_0 as Hpi.
  rewrite calculateDistance_haversine.
  set (t := lon * PI / 180 / 2).
  assert (Ht : 0 <= t < PI / 2) by (unfold t; split; nra).
  assert (Ha : haversine 0 lon 0 0 = sin t * sin t).
  { unfold haversine.
    replace ((0 - 0) * PI / 180 / 2) with 0 by lra.
    replace (0 * PI / 180) with 0 by lra.
    replace ((0 - lon) * PI / 180 / 2) with (- t) by (unfold t; lra).
    rewrite sin_0, cos_0, sin_neg. ring. }
  assert (Hs : 0 <= sin t) by (apply sin_ge_0; lra).
  assert (Hc : 0 < cos t) by (apply cos_gt_0; lra).
  pose proof (sin2_cos2 t) as Hsc. unfold Rsqr in Hsc.
  rewrite Ha.
  replace (1 - sin t * sin t) with (cos t * cos t) by lra.
  rewrite !Math_sqrt_ok by nra.
  rewrite !sqrt_square by lra.
  rewrite Math_atan2_sin_cos by exact Ht.
  f_equal. unfold t. lra.
Qed.

Lemma PI_bounds : 3 < PI <= 4.
Proof. split; [pose proof PI2_3_2; lra | apply PI_4]. Qed.

(** The formula in exact arithmetic: for two points of the globe, given in
    decimal degrees, the distance of a point to itself is 0, the distance does
    not depend on the order of the two points, and it is a number that is not
    negative.  The sphere has radius 6371 km: a quarter of the equator
    measures 6371 * PI / 2.  This is a fact of the formula, not of its
    evaluation in doubles, where rounding can make [a] exceed 1 for two
    nearly antipodal points; the square root of [1 - a] is then NaN. *)
Theorem haversine_distance_properties (lat1 lon1 lat2 lon2 : R) :
  valid_latitude lat1 -> valid_longitude lon1 ->
  valid_latitude lat2 -> valid_longitude lon2 ->
  calculateDistance (Real lat1) (Real lon1) (Real lat1) (Real lon1) = Real 0 /\
  calculateDistance (Real lat1) (Real lon1) (Real lat2) (Real lon2) =
    calculateDistance (Real lat2) (Real lon2) (Real lat1) (Real lon1) /\
  (exists d, calculateDistance (Real lat1) (Real lon1) (Real lat2) (Real lon2) = Real d
             /\ 0 <= d) /\
  calculateDistance (Real 0) (Real 90) (Real 0) (Real 0) = Real (6371 * (PI / 2)).
Proof.
  intros V1 _ V2 _. repeat split.
  - rewrite calculateDistance_haversine, haversine_same.
    replace (1 - 0) with 1 by lra.
    rewrite !Math_sqrt_ok by lra. rewrite sqrt_0, sqrt_1.
    f_equal. unfold Math_atan2.
    destruct (Rlt_dec 0 1); [|lra].
    replace (0 / 1) with 0 by lra. rewrite atan_0. lra.
  - rewrite !calculateDistance_haversine.
    rewrite (haversine_sym lat1 lon1 lat2 lon2). reflexivity.
  - destruct (haversine_range lon1 lon2 V1 V2) as [Ha0 Ha1].
    rewrite calculateDistance_haversine.
    rewrite !Math_sqrt_ok by lra.
    eexists. split; [reflexivity|].
    pose proof (Math_atan2_nonneg (sqrt_pos (haversine lat1 lon1 lat2 lon2))
                                  (sqrt_pos (1 - haversine lat1 lon1 lat2 lon2))).
    lra.
  - rewrite calculateDistance_equator by lra. f_equal. lra.
Qed.

Lemma haversine_distance_properties_witness :
  exists d, calculateDistance (Real 28.6) (Real 77.2) (Real 19) (Real 72.8) = Real d
            /\ 0 <= d.
Proof.
  apply (@haversine_distance_properties 28.6 77.2 19 72.8);
    unfold valid_latitude, valid_longitude; lra.
Defined.

End Distance.

(** ** Aggregation: the location filter *)

Section LocationFilter.
Import Api.

Ltac lra := Lra.lra.

(** A parameter that is the number zero. *)
Definition is_zero (x : option number) : Prop :=
  exists q, x = Some (Num q) /\ q == 0.

Lemma truthy_zero (x : option number) : is_zero x -> truthy x = None.
Proof.
  intros (q & -> & Hq). unfold truthy.
  apply truthyQ_false in Hq. rewrite Hq. reflexivity.
Qed.

Lemma truthy_Some (x : option number) (q : Q) :
  truthy x = Some q <-> x = Some (Num q) /\ ~ q == 0.
Proof.
  unfold truthy. split.
  - destruct x as [[q'|]|]; try discriminate.
    destruct (truthyQ q') eqn:E; [|discriminate].
    intro H. injection H as ->. split; [reflexivity|]. apply truthyQ_true. exact E.
  - intros [-> H]. apply truthyQ_true in H. rewrite H. reflexivity.
Qed.

Lemma filterByLocation_skipped (options : Options.t) (all : list Disaster) :
  truthy (Options.latitude options) = None \/
  truthy (Options.longitude options) = None \/
  truthy (Options.radius options) = None ->
  filterByLocation options all = all.
Proof.
  unfold filterByLocation. intros [H | [H | H]]; rewrite H.
  - reflexivity.
  - destruct (truthy (Options.latitude options)); reflexivity.
  - destruct (truthy (Options.latitude options)), (truthy (Options.longitude options));
      reflexivity.
Qed.

Lemma filterByLocation_applied (options : Options.t) (lat lon radius : Q)
      (all : list Disaster) :
  truthy (Options.latitude options) = Some lat ->
  truthy (Options.longitude options) = Some lon ->
  truthy (Options.radius options) = Some radius ->
  filterByLocation options all = filter (withinRadius lat lon radius) all.
Proof.
  unfold filterByLocation. intros -> -> ->. reflexivity.
Qed.

(** The predicate of the filter: coordinates present and distance at most
    the radius. *)
Definition within (lat lon radius : Q) (disaster : Disaster) : Prop :=
  is_empty (latitude disaster) = false /\
  is_empty (longitude disaster) = false /\
  exists d : R,
    calculateDistance (Real (Q2R lat)) (Real (Q2R lon))
                      (toReal (parseFloat (latitude disaster)))
                      (toReal (parseFloat (longitude disaster))) = Real d /\
    (d <= Q2R radius)%R.

Lemma leq_true (distance : real) (radius : R) :
  leq distance radius = true <-> exists d, distance = Real d /\ (d <= radius)%R.
Proof.
  unfold leq. split.
  - destruct distance as [d|]; [|discriminate].
    destruct (Rle_dec d radius); [eauto|discriminate].
  - intros (d & -> & H). destruct (Rle_dec d radius); [reflexivity|contradiction].
Qed.

Lemma withinRadius_within (lat lon radius : Q) (disaster : Disaster) :
  withinRadius lat lon radius disaster = true <-> within lat lon radius disaster.
Proof.
  unfold withinRadius, within.
  destruct (is_empty (latitude disaster)), (is_empty (longitude disaster)); simpl;
    try (split; [discriminate | intros (H1 & H2 & _); discriminate]).
  rewrite leq_true. split; [auto | intros (_ & _ & H); exact H].
Qed.

(** With latitude, longitude and radius all different from zero, the events
    returned are the events of the concatenation that lie within the radius,
    in their order. *)
Lemma filterByLocation_within (options : Options.t) (lat lon radius : Q)
      (all : list Disaster) :
  truthy (Options.latitude options) = Some lat ->
  truthy (Options.longitude options) = Some lon ->
  truthy (Options.radius options) = Some radius ->
  filterByLocation options all = filter (withinRadius lat lon radius) all /\
  forall disaster,
    In disaster (filterByLocation options all) <->
    In disaster all /\ within lat lon radius disaster.
Proof.
  intros H1 H2 H3. rewrite (filterByLocation_applied _ _ H1 H2 H3).
  split; [reflexivity|]. intro d.
  rewrite filter_In, withinRadius_within. reflexivity.
Qed.

Lemma Q2R_zero : Q2R 0 = 0%R.
Proof. unfold Q2R. simpl. lra. Qed.

(** The distance of the query centre (0, 0.1) to the point (0, 0). *)
Lemma distance_from_equator_query :
  calculateDistance (Real (Q2R 0)) (Real (Q2R 0.1)) (Real (Q2R 0)) (Real (Q2R 0))
  = Real (6371 * PI / 1800) /\
  (10 < 6371 * PI / 1800 <= 15)%R.
Proof.
  split.
  - rewrite Q2R_zero, calculateDistance_equator.
    + f_equal. unfold Q2R; simpl. lra.
    + unfold Q2R; simpl. lra.
  - pose proof PI_bounds. lra.
Qed.

(** An earthquake located at latitude 0, longitude 0. *)
Definition quake_at_origin : Usgs.USGSFeature := quake 4.5 0 0.

Definition world_origin : World :=
  {| env_OPENWEATHERMAP_API_KEY := Some "0123456789abcdef";
     env_OWM_API_KEY := None;
     usgs := fun _ => Delivered {| Usgs.features := [quake_at_origin] |};
     noaa := fun _ => Delivered {| Noaa.features := [] |};
     owm_weather := fun _ _ => NetworkFailure;
     owm_onecall := fun _ _ => Delivered storm_with_forecast |}.

(** A query centred on the equator, at (0, 0.1). *)
Definition equator_query (radius : Q) : Options.t :=
  {| Options.types := None; Options.alertTypes := None; Options.timeRange := None;
     Options.latitude := Some (Num 0); Options.longitude := Some (Num 0.1);
     Options.radius := Some (Num radius) |}.

Lemma withinRadius_origin :
  withinRadius 0 0.1 10 (Usgs.mapFeature quake_at_origin) = false /\
  withinRadius 0 0.1 15 (Usgs.mapFeature quake_at_origin) = true.
Proof.
  destruct distance_from_equator_query as [Hd Hb].
  change (withinRadius 0 0.1 10 (Usgs.mapFeature quake_at_origin))
    with (leq (calculateDistance (Real (Q2R 0)) (Real (Q2R 0.1))
                                 (Real (Q2R 0)) (Real (Q2R 0))) (Q2R 10)).
  change (withinRadius 0 0.1 15 (Usgs.mapFeature quake_at_origin))
    with (leq (calculateDistance (Real (Q2R 0)) (Real (Q2R 0.1))
                                 (Real (Q2R 0)) (Real (Q2R 0))) (Q2R 15)).
  rewrite Hd. unfold leq.
  split.
  - destruct (Rle_dec (6371 * PI / 1800) (Q2R 10)) as [H|H]; [|reflexivity].
    exfalso. revert H. unfold Q2R; simpl. lra.
  - destruct (Rle_dec (6371 * PI / 1800) (Q2R 15)) as [H|H]; [reflexivity|].
    exfalso. apply H. unfold Q2R; simpl. lra.
Qed.

(** C4: the event at (0, 0) lies 6371 * PI / 1800 km (between 10 and 15)
    from the query centre (0, 0.1), so the predicate of the filter rejects it
    for radius 10 and accepts it for radius 15.  [getAllDisasters] returns it
    for radius 10 all the same: the latitude 0 of the query is falsy, and the
    filter is not applied. *)
Theorem radius_filter_not_applied_on_equator :
  withinRadius 0 0.1 10 (Usgs.mapFeature quake_at_origin) = false /\
  withinRadius 0 0.1 15 (Usgs.mapFeature quake_at_origin) = true /\
  snd (getAllDisasters world_origin (equator_query 10))
    = Ok [Usgs.mapFeature quake_at_origin] /\
  snd (getAllDisasters world_origin (equator_query 15))
    = Ok [Usgs.mapFeature quake_at_origin].
Proof.
  destruct withinRadius_origin as [H10 H15].
  repeat split; try assumption; reflexivity.
Qed.

End LocationFilter.

(** ** Aggregation: parameters equal to zero *)

Section ZeroParameters.
Import Api.

Lemma weatherPromise_skipped (w : World) (options : Options.t) :
  truthy (Options.latitude options) = None \/ truthy (Options.longitude options) = None ->
  weatherPromise w options = resolve [].
Proof.
  unfold weatherPromise. intros [H | H]; rewrite H; [reflexivity|].
  destruct (truthy (Options.latitude options)); reflexivity.
Qed.

(** C5: a latitude, longitude or radius equal to zero is falsy, as an absent
    one is.  With latitude 0 or longitude 0, [fetchWeatherOneCall] is not
    called and the location filter is not applied, whatever the radius: the
    call makes the two other adapter calls and returns their events, in
    order, filtered by type and by alert type only.  With radius 0 the
    location filter is not applied. *)
Theorem zero_parameter_is_absent (w : World) (options : Options.t) :
  (forall x, is_zero x -> truthy x = truthy None) /\
  (is_zero (Options.latitude options) \/ is_zero (Options.longitude options) ->
   fst (getAllDisasters w options) =
     [FetchEarthquakeData (timeRangeOf options); FetchWeatherAlerts None] /\
   snd (getAllDisasters w options) =
     match snd (Usgs.fetchEarthquakeData (usgs w) (timeRangeOf options)),
           snd (Noaa.fetchWeatherAlerts (noaa w) None) with
     | Ok earthquakes, Ok weatherAlerts =>
         Ok (filterByAlertTypes (Options.alertTypes options)
               (filterByTypes (Options.types options)
                  (earthquakes ++ weatherAlerts ++ [])))
     | _, _ => Throw "Failed to fetch disaster data"
     end) /\
  (is_zero (Options.radius options) ->
   snd (getAllDisasters w options) =
     match snd (Usgs.fetchEarthquakeData (usgs w) (timeRangeOf options)),
           snd (Noaa.fetchWeatherAlerts (noaa w) None),
           snd (weatherPromise w options) with
     | Ok earthquakes, Ok weatherAlerts, Ok weatherData =>
         Ok (filterByAlertTypes (Options.alertTypes options)
               (filterByTypes (Options.types options)
                  (earthquakes ++ weatherAlerts ++ weatherData)))
     | _, _, _ => Throw "Failed to fetch disaster data"
     end).
Proof.
  split; [intros x Hx; apply truthy_zero; exact Hx|]. split.
  - intro H.
    assert (Hn : truthy (Options.latitude options) = None \/
                 truthy (Options.longitude options) = None).
    { destruct H as [H | H]; [left | right]; apply truthy_zero; exact H. }
    split.
    + rewrite getAllDisasters_calls, weatherPromise_skipped by exact Hn. reflexivity.
    + rewrite getAllDisasters_result, weatherPromise_skipped by exact Hn.
      unfold filtered, resolve. cbn [snd].
      destruct (snd (Usgs.fetchEarthquakeData (usgs w) (timeRangeOf options)));
        destruct (snd (Noaa.fetchWeatherAlerts (noaa w) None)); try reflexivity.
      rewrite filterByLocation_skipped; [reflexivity|].
      destruct Hn as [Hn | Hn]; auto.
  - intro H. rewrite getAllDisasters_result. unfold filtered.
    destruct (snd (Usgs.fetchEarthquakeData (usgs w) (timeRangeOf options)));
      destruct (snd (Noaa.fetchWeatherAlerts (noaa w) None));
      destruct (snd (weatherPromise w options)); try reflexivity.
    rewrite filterByLocation_skipped; [reflexivity|].
    right; right. apply truthy_zero. exact H.
Qed.

(** A query on the prime meridian with a radius of 50 km, and a query with a
    radius of zero. *)
Definition meridian_query : Options.t :=
  {| Options.types := None; Options.alertTypes := None; Options.timeRange := None;
     Options.latitude := Some (Num 51.5); Options.longitude := Some (Num 0);
     Options.radius := Some (Num 50) |}.

Definition zero_radius_query : Options.t :=
  {| Options.types := None; Options.alertTypes := None; Options.timeRange := None;
     Options.latitude := Some (Num 28.6); Options.longitude := Some (Num 77.2);
     Options.radius := Some (Num 0) |}.

Lemma zero_parameter_is_absent_witness :
  (fst (getAllDisasters world_origin meridian_query) =
     [FetchEarthquakeData "1day"; FetchWeatherAlerts None] /\
   snd (getAllDisasters world_origin meridian_query) =
     Ok [Usgs.mapFeature quake_at_origin]) /\
  snd (getAllDisasters world_origin zero_radius_query) =
    Ok (Usgs.mapFeature quake_at_origin ::
        Owm.analyzeWeatherConditions storm_with_forecast).
Proof.
  split.
  - apply (proj1 (proj2 (zero_parameter_is_absent world_origin meridian_query))).
    right. exists 0. split; reflexivity.
  - apply (proj2 (proj2 (zero_parameter_is_absent world_origin zero_radius_query))).
    exists 0. split; reflexivity.
Defined.

End ZeroParameters.

(** ** Strings *)

Lemma prefix_spec (sub s : string) :
  String.prefix sub s = true <-> exists post, s = (sub ++ post)%string.
Proof.
  revert s. induction sub as [|a sub IH]; intro s.
  - split; [intros _; exists s; reflexivity | intros _; destruct s; reflexivity].
  - destruct s as [|b s]; simpl.
    + split; [discriminate | intros [post H]; discriminate].
    + destruct (ascii_dec a b) as [->|Hne].
      * rewrite IH. split; intros [post H]; exists post.
        -- rewrite H. reflexivity.
        -- injection H as H. exact H.
      * split; [discriminate|]. intros [post H]. injection H as Hb _. congruence.
Qed.

Lemma includes_spec (s sub : string) :
  includes s sub = true <-> exists pre post, s = (pre ++ sub ++ post)%string.
Proof.
  induction s as [|c s IH].
  - change (includes EmptyString sub) with (String.prefix sub EmptyString || false).
    rewrite orb_false_r, prefix_spec. split.
    + intros [post H]. exists EmptyString, post. exact H.
    + intros [[|x pre] [post H]]; [eauto | discriminate].
  - change (includes (String c s) sub)
      with (String.prefix sub (String c s) || includes s sub).
    rewrite orb_true_iff, prefix_spec, IH. split.
    + intros [[post H] | (pre & post & H)].
      * exists EmptyString, post. exact H.
      * exists (String c pre), post. simpl. rewrite H. reflexivity.
    + intros [[|x pre] [post H]].
      * left. exists post. exact H.
      * right. injection H as _ H. eauto.
Qed.

(** ** Weather-alert adapter: the hazard lexicon *)

Section Lexicon.
Import Noaa.

(** [event] contains [key], case-insensitively. *)
Definition contains_ci (event key : string) : Prop :=
  exists pre post, toLowerCase event = (pre ++ toLowerCase key ++ post)%string.

Lemma includes_contains_ci (event key : string) :
  includes (toLowerCase event) (toLowerCase key) = true <-> contains_ci event key.
Proof. apply includes_spec. Qed.

(** [key], with value [value], is the first key of [entries] that [event]
    contains. *)
Definition first_match (entries : list (string * DisasterType))
           (event key : string) (value : DisasterType) : Prop :=
  exists before after,
    entries = before ++ (key, value) :: after /\
    contains_ci event key /\
    forall k v, In (k, v) before -> ~ contains_ci event k.

Lemma relevant_spec (feature : NOAAAlert) :
  relevant feature = true <->
  exists key value, In (key, value) noaaEventToDisasterType /\
                    contains_ci (event feature) key.
Proof.
  unfold relevant. rewrite existsb_exists. split.
  - intros (key & Hin & H). apply in_map_iff in Hin as ([k v] & Hk & Hin).
    simpl in Hk. subst k. exists key, v. split; [exact Hin|].
    apply includes_contains_ci. exact H.
  - intros (key & value & Hin & H). exists key. split.
    + apply in_map_iff. exists (key, value). split; [reflexivity | exact Hin].
    + apply includes_contains_ci. exact H.
Qed.

Lemma entriesLoop_first_match (entries : list (string * DisasterType))
      (event : string) (default : DisasterType) :
  (exists key value, In (key, value) entries /\ contains_ci event key) ->
  exists key, first_match entries event key (entriesLoop entries event default).
Proof.
  induction entries as [|[k v] rest IH]; intros (key & value & Hin & Hc).
  - destruct Hin.
  - simpl. destruct (includes (toLowerCase event) (toLowerCase k)) eqn:E.
    + exists k, [], rest. repeat split.
      * apply includes_contains_ci. exact E.
      * intros ? ? [].
    + assert (Hrest : exists key value, In (key, value) rest /\ contains_ci event key).
      { destruct Hin as [Heq | Hin]; [|eauto].
        injection Heq as -> ->. apply includes_contains_ci in Hc. congruence. }
      destruct (IH Hrest) as (key' & before & after & Heq & Hck & Hnone).
      exists key', ((k, v) :: before), after. repeat split.
      * simpl. f_equal. exact Heq.
      * exact Hck.
      * intros k0 v0 [H0 | H0]; [|eauto].
        injection H0 as <- <-. intro Hk. apply includes_contains_ci in Hk. congruence.
Qed.

Lemma mapM_Forall2 {A B : Type} (f : A -> result B) (l : list A) (ys : list B) :
  mapM f l = Ok ys -> Forall2 (fun x y => f x = Ok y) l ys.
Proof.
  revert ys. induction l as [|x l IH]; simpl; intros ys H.
  - injection H as <-. constructor.
  - destruct (f x) as [y|] eqn:Ex; [|discriminate].
    destruct (mapM f l) as [ys'|]; [|discriminate].
    injection H as <-. constructor; auto.
Qed.

Lemma mapM_total {A B : Type} (f : A -> result B) (l : list A) :
  Forall (fun x => exists y, f x = Ok y) l -> exists ys, mapM f l = Ok ys.
Proof.
  induction 1 as [|x l [y Hy] _ [ys Hys]]; simpl.
  - eexists; reflexivity.
  - rewrite Hy, Hys. eexists; reflexivity.
Qed.

(** A geometry from which the adapter can read a first ring. *)
Definition readable (g : option Geometry) : Prop :=
  match g with
  | Some (Polygon []) | Some (MultiPolygon []) | Some (MultiPolygon ([] :: _)) => False
  | _ => True
  end.

Lemma extractCoordinates_total (g : option Geometry) :
  readable g -> exists c, extractCoordinates g = Ok c.
Proof.
  destruct g as [[lon lat|[|r rs]|[|[|r rs] ps]|t]|]; simpl; intro H;
    try destruct H; eexists; reflexivity.
Qed.

(** The fields of the event of a feature. *)
Lemma mapFeature_Ok (feature : NOAAAlert) (d : Disaster) :
  mapFeature feature = Ok d ->
  id d = NativeId (alert_id feature) /\
  disasterType d = entriesLoop noaaEventToDisasterType (event feature) Storm /\
  alertType d = noaaSeverityToAlertType (severity_text feature) /\
  exists lat lon,
    extractCoordinates (geometry feature) = Ok (lat, lon) /\
    latitude d = toString lat /\ longitude d = toString lon.
Proof.
  unfold mapFeature.
  destruct (extractCoordinates (geometry feature)) as [[la lo]|]; [|discriminate].
  intro H. injection H as <-.
  split; [reflexivity|]. split; [reflexivity|]. split; [reflexivity|].
  exists la, lo. split; [reflexivity|]. split; reflexivity.
Qed.

Definition alert (event : string) (geometry : option Geometry) : NOAAAlert :=
  {| alert_id := "urn:oid:2.49.0.1.840.0.1"; event := event;
     severity_text := "Severe"; areaDesc := "Somewhere County";
     geometry := geometry |}.

(** C7: a feature of the weather-alert feed passes the pre-filter exactly
    when its event name contains, case-insensitively, some key of the
    lexicon; the events emitted are, in feed order, those of the features
    that pass, and each carries the value of the first key, in declaration
    order, that its event name contains.  A feed whose geometries are
    readable is mapped without an error. *)
Theorem noaa_lexicon_filter :
  (forall feature,
      relevant feature = true <->
      exists key value, In (key, value) noaaEventToDisasterType /\
                        contains_ci (event feature) key) /\
  (forall data events,
      mapNOAAResponseToDisasters data = Ok events ->
      Forall2 (fun feature d =>
                 id d = NativeId (alert_id feature) /\
                 exists key, first_match noaaEventToDisasterType
                                         (event feature) key (disasterType d))
              (filter relevant (features data)) events) /\
  (forall data,
      Forall (fun feature => readable (geometry feature)) (features data) ->
      exists events, mapNOAAResponseToDisasters data = Ok events) /\
  (exists events,
      mapNOAAResponseToDisasters
        {| features := [alert "Coastal Flood Advisory" None;
                        alert "Heat Advisory" None;
                        alert "FLASH FLOOD WARNING" None;
                        alert "Red Flag Warning" None;
                        alert "Tornado Watch" None] |} = Ok events /\
      map disasterType events = [Flood; Flood; Wildfire; Storm]).
Proof.
  split; [exact relevant_spec|]. split; [|split].
  - intros data events H. unfold mapNOAAResponseToDisasters in H.
    apply mapM_Forall2 in H.
    assert (Hrel : Forall (fun f => relevant f = true) (filter relevant (features data))).
    { apply Forall_forall. intros f Hf. apply filter_In in Hf. tauto. }
    induction H as [|f d fs ds Hfd _ IH]; constructor.
    + inversion Hrel as [|? ? Hf _]; subst.
      apply mapFeature_Ok in Hfd as (Hid & Hty & _).
      split; [exact Hid|]. rewrite Hty.
      apply entriesLoop_first_match. apply relevant_spec. exact Hf.
    + apply IH. inversion Hrel; assumption.
  - intros data H. unfold mapNOAAResponseToDisasters. apply mapM_total.
    apply Forall_forall. intros f Hf. apply filter_In in Hf as [Hf _].
    rewrite Forall_forall in H. specialize (H f Hf).
    destruct (extractCoordinates_total _ H) as [[la lo] Hc].
    unfold mapFeature. rewrite Hc. eexists; reflexivity.
  - eexists. split; reflexivity.
Qed.

Lemma noaa_lexicon_filter_witness :
  Forall2 (fun feature d =>
             id d = NativeId (alert_id feature) /\
             exists key, first_match noaaEventToDisasterType
                                     (event feature) key (disasterType d))
          (filter relevant [alert "Heat Advisory" None; alert "Tsunami Warning" None])
          [ {| id := NativeId "urn:oid:2.49.0.1.840.0.1";
               disasterType := Flood; alertType := Warning;
               location := "Somewhere County";
               latitude := toString (Num 0); longitude := toString (Num 0);
               source := NOAA |} ].
Proof.
  apply (proj1 (proj2 noaa_lexicon_filter)
               {| features := [alert "Heat Advisory" None; alert "Tsunami Warning" None] |}).
  reflexivity.
Defined.

End Lexicon.

(** ** Weather-alert adapter: coordinates *)

Section AlertCoordinates.
Import Noaa Api.

(** A feature without a geometry, or with one of an unrecognized type. *)
Definition unlocated (g : option Geometry) : Prop :=
  g = None \/ exists type, g = Some (OtherGeometry type).

(** The point (0, 0) lies within [radius] km of the query centre. *)
Definition origin_within (lat lon radius : Q) : Prop :=
  exists d : R,
    calculateDistance (Real (Q2R lat)) (Real (Q2R lon)) (Real 0) (Real 0) = Real d /\
    (d <= Q2R radius)%R.

Lemma mapFeature_coordinates_set (feature : NOAAAlert) (d : Disaster) :
  mapFeature feature = Ok d ->
  is_empty (latitude d) = false /\ is_empty (longitude d) = false.
Proof.
  intro H. apply mapFeature_Ok in H as (_ & _ & _ & la & lo & _ & -> & ->).
  split; reflexivity.
Qed.

Lemma mapFeature_unlocated (feature : NOAAAlert) :
  unlocated (geometry feature) ->
  exists d, mapFeature feature = Ok d /\
            latitude d = toString (Num 0) /\ longitude d = toString (Num 0).
Proof.
  unfold mapFeature. intros [H | [type H]]; rewrite H;
    eexists; (split; [reflexivity|]); split; reflexivity.
Qed.

(** Every event of the weather-alert adapter has a latitude and a longitude
    that are not empty.  For a feature without a geometry, or with a geometry
    of an unrecognized type, both are the text of the number 0; the
    missing-coordinate test of the location filter lets such an event
    through, and when the filter is applied (latitude, longitude and radius
    of the query all non-zero) it keeps the event exactly when the point
    (0, 0) lies within the radius of the query centre. *)
Theorem noaa_events_have_coordinates :
  (forall data events,
      mapNOAAResponseToDisasters data = Ok events ->
      Forall (fun d => is_empty (latitude d) = false /\ is_empty (longitude d) = false)
             events) /\
  (forall feature,
      unlocated (geometry feature) ->
      exists d,
        mapFeature feature = Ok d /\
        latitude d = toString (Num 0) /\ longitude d = toString (Num 0) /\
        forall options lat lon radius all,
          truthy (Options.latitude options) = Some lat ->
          truthy (Options.longitude options) = Some lon ->
          truthy (Options.radius options) = Some radius ->
          (In d (filterByLocation options all) <->
           In d all /\ origin_within lat lon radius)).
Proof.
  split.
  - intros data events H. unfold mapNOAAResponseToDisasters in H.
    apply mapM_Forall2 in H.
    induction H as [|f d fs ds Hfd _ IH]; constructor; [|exact IH].
    apply (mapFeature_coordinates_set _ Hfd).
  - intros feature Hu.
    destruct (mapFeature_unlocated _ Hu) as (d & Hd & Hlat & Hlon).
    exists d. split; [exact Hd|]. split; [exact Hlat|]. split; [exact Hlon|].
    intros options lat lon radius all H1 H2 H3.
    destruct (filterByLocation_within _ all H1 H2 H3) as [_ Hin].
    rewrite Hin. unfold within, origin_within.
    rewrite Hlat, Hlon. simpl. rewrite Q2R_zero.
    split; [intros (Ha & _ & _ & W) | intros (Ha & W)]; repeat split; assumption.
Qed.

Lemma noaa_events_have_coordinates_witness :
  Forall (fun d => is_empty (latitude d) = false /\ is_empty (longitude d) = false)
         [ {| id := NativeId "urn:oid:2.49.0.1.840.0.1";
              disasterType := Flood; alertType := Warning;
              location := "Somewhere County";
              latitude := toString (Num 0); longitude := toString (Num 0);
              source := NOAA |} ].
Proof.
  apply (proj1 noaa_events_have_coordinates
               {| features := [alert "Heat Advisory" None; alert "Tsunami Warning" None] |}).
  reflexivity.
Defined.

(** The weather-alert feed delivers one flood warning without a geometry;
    there is no earthquake. *)
Definition world_alert_without_geometry : World :=
  {| env_OPENWEATHERMAP_API_KEY := Some "0123456789abcdef";
     env_OWM_API_KEY := None;
     usgs := fun _ => Delivered {| Usgs.features := [] |};
     noaa := fun _ =>
       Delivered {| Noaa.features := [alert "Flood Warning" None] |};
     owm_weather := fun _ _ => NetworkFailure;
     owm_onecall := fun _ _ => Delivered storm_with_forecast |}.

(** The event of that warning: both coordinates are the text of 0. *)
Definition alert_at_origin : Disaster :=
  {| id := NativeId "urn:oid:2.49.0.1.840.0.1";
     disasterType := Flood; alertType := Warning;
     location := "Somewhere County";
     latitude := toString (Num 0); longitude := toString (Num 0);
     source := NOAA |}.

(** C8: the alert without a geometry is emitted with the coordinates (0, 0),
    which are not missing.  For the radius query of centre (0, 0.1) and radius
    10 km the point (0, 0) is not within the radius (it lies
    6371 * PI / 1800 km away, more than 10), so the predicate of the filter
    rejects the event; [getAllDisasters] returns it all the same: the latitude
    0 of the query is falsy and the filter is not applied. *)
Theorem default_coordinates_kept_outside_radius :
  mapFeature (alert "Flood Warning" None) = Ok alert_at_origin /\
  is_empty (latitude alert_at_origin) = false /\
  is_empty (longitude alert_at_origin) = false /\
  parseFloat (latitude alert_at_origin) = Num 0 /\
  parseFloat (longitude alert_at_origin) = Num 0 /\
  withinRadius 0 0.1 10 alert_at_origin = false /\
  snd (getAllDisasters world_alert_without_geometry (equator_query 10))
    = Ok [alert_at_origin].
Proof.
  split; [reflexivity|]. split; [reflexivity|]. split; [reflexivity|].
  split; [reflexivity|]. split; [reflexivity|]. split; [|reflexivity].
  destruct distance_from_equator_query as [Hd Hb].
  change (withinRadius 0 0.1 10 alert_at_origin)
    with (leq (calculateDistance (Real (Q2R 0)) (Real (Q2R 0.1))
                                 (Real (Q2R 0)) (Real (Q2R 0))) (Q2R 10)).
  rewrite Hd. unfold leq.
  destruct (Rle_dec (6371 * PI / 1800) (Q2R 10)) as [H|H]; [|reflexivity].
  exfalso. revert H. unfold Q2R; simpl. Lra.lra.
Qed.

End AlertCoordinates.

(** * Further properties *)

(** ** Statistics *)

Section Statistics.
Import ByLocation.

Lemma count_by_alertType (disasters : list Disaster) :
  (List.length (filter (fun d => AlertType_eqb (alertType d) Warning) disasters) +
   List.length (filter (fun d => AlertType_eqb (alertType d) Watch) disasters) +
   List.length (filter (fun d => AlertType_eqb (alertType d) Advisory) disasters)
   = List.length disasters)%nat.
Proof.
  induction disasters as [|d ds IH]; [reflexivity|].
  simpl. destruct (alertType d); simpl; lia.
Qed.

Lemma Set_of_cons (x : string) (l : list string) :
  Set_of (x :: l) = if in_dec string_dec x l then Set_of l else x :: Set_of l.
Proof. reflexivity. Qed.

Lemma affectedAreas_cons (d : Disaster) (disasters : list Disaster) :
  affectedAreas (getDisasterStats (d :: disasters)) =
  if in_dec string_dec (location d) (map location disasters)
  then affectedAreas (getDisasterStats disasters)
  else S (affectedAreas (getDisasterStats disasters)).
Proof.
  unfold getDisasterStats. cbn [affectedAreas map]. rewrite Set_of_cons.
  destruct (in_dec string_dec (location d) (map location disasters)); reflexivity.
Qed.

(** X2: [affectedAreas] counts the distinct location strings: an event whose
    location already occurs adds nothing, an event with a new location adds
    one; the count is zero only for the empty collection, never exceeds the
    number of events, and is the same for a collection and for that
    collection repeated twice. *)
Theorem stats_affected_areas (disasters : list Disaster) :
  (forall d,
      (exists d', In d' disasters /\ location d' = location d) ->
      affectedAreas (getDisasterStats (d :: disasters)) =
      affectedAreas (getDisasterStats disasters)) /\
  (forall d,
      (forall d', In d' disasters -> location d' <> location d) ->
      affectedAreas (getDisasterStats (d :: disasters)) =
      S (affectedAreas (getDisasterStats disasters))) /\
  (affectedAreas (getDisasterStats disasters) = 0%nat <-> disasters = []) /\
  (affectedAreas (getDisasterStats disasters) <= List.length disasters)%nat /\
  affectedAreas (getDisasterStats (disasters ++ disasters)) =
  affectedAreas (getDisasterStats disasters).
Proof.
  split; [|split; [|split; [|split]]].
  - intros d (d' & Hin & Hloc). rewrite affectedAreas_cons.
    destruct (in_dec string_dec (location d) (map location disasters)) as [_|Hn];
      [reflexivity|].
    exfalso. apply Hn. rewrite <- Hloc. apply in_map. exact Hin.
  - intros d Hnew. rewrite affectedAreas_cons.
    destruct (in_dec string_dec (location d) (map location disasters)) as [Hi|_];
      [|reflexivity].
    exfalso. apply in_map_iff in Hi as (d' & Hloc & Hin). exact (Hnew d' Hin Hloc).
  - split.
    + destruct disasters as [|d ds]; [reflexivity|].
      unfold getDisasterStats, Set_of. cbn [affectedAreas]. intro H.
      apply length_zero_iff_nil in H.
      assert (Hin : In (location d) (nodup string_dec (map location (d :: ds))))
        by (apply nodup_In; left; reflexivity).
      rewrite H in Hin. destruct Hin.
    + intros ->. reflexivity.
  - unfold getDisasterStats, Set_of. cbn [affectedAreas].
    rewrite <- (length_map location disasters).
    apply NoDup_incl_length; [apply NoDup_nodup|].
    intros x Hx. apply nodup_In in Hx. exact Hx.
  - unfold getDisasterStats, Set_of. cbn [affectedAreas].
    rewrite map_app.
    assert (G : forall (l m : list string), incl l m ->
                nodup string_dec (l ++ m) = nodup string_dec m).
    { clear. induction l as [|x l IH]; intros m Hi; [reflexivity|].
      simpl. destruct (in_dec string_dec x (l ++ m)) as [_|Hn].
      - apply IH. intros y Hy. apply Hi. right. exact Hy.
      - exfalso. apply Hn. apply in_or_app. right. apply Hi. left. reflexivity. }
    rewrite G by apply incl_refl. reflexivity.
Qed.

Lemma stats_affected_areas_witness :
  affectedAreas (getDisasterStats
                   [Usgs.mapFeature (quake 5.5 0 0); Usgs.mapFeature (quake 3 10 10)]) =
  affectedAreas (getDisasterStats [Usgs.mapFeature (quake 3 10 10)]).
Proof.
  apply (proj1 (stats_affected_areas [Usgs.mapFeature (quake 3 10 10)])).
  exists (Usgs.mapFeature (quake 3 10 10)). split; [left|]; reflexivity.
Defined.

End Statistics.

(** ** Time ranges *)

Section TimeRanges.

Ltac case_literal t s :=
  destruct (String.eqb_spec t s) as [->|?]; [reflexivity|].

(** X3: resolving a time range twice is resolving it once, and the seismic
    adapter reads a resolved token as it reads the token itself, for every
    token but [week] and [month], which only [mapTimeRangeToValue] knows:
    given directly to [fetchEarthquakeData] they select the file of the day,
    through [getAllDisasters] those of the week and of the month. *)
Theorem time_range_resolution (timeRange : string) :
  mapTimeRangeToValue (mapTimeRangeToValue timeRange) = mapTimeRangeToValue timeRange /\
  (timeRange <> "week" -> timeRange <> "month" ->
   Usgs.endpoint (mapTimeRangeToValue timeRange) = Usgs.endpoint timeRange) /\
  Usgs.endpoint "week" = "all_day.geojson" /\
  Usgs.endpoint (mapTimeRangeToValue "week") = "all_week.geojson" /\
  Usgs.endpoint "month" = "all_day.geojson" /\
  Usgs.endpoint (mapTimeRangeToValue "month") = "all_month.geojson".
Proof.
  split; [|split; [|repeat split]].
  - case_literal timeRange "1h". case_literal timeRange "hour".
    case_literal timeRange "24h". case_literal timeRange "1d".
    case_literal timeRange "1day". case_literal timeRange "7d".
    case_literal timeRange "7days". case_literal timeRange "week".
    case_literal timeRange "30d". case_literal timeRange "30days".
    case_literal timeRange "month".
    assert (E : mapTimeRangeToValue timeRange = "1day").
    { unfold mapTimeRangeToValue.
      repeat match goal with
             | H : timeRange <> _ |- _ => apply String.eqb_neq in H; rewrite H; clear H
             end.
      reflexivity. }
    rewrite E. reflexivity.
  - intros Hw Hm.
    case_literal timeRange "1h". case_literal timeRange "hour".
    case_literal timeRange "24h". case_literal timeRange "1d".
    case_literal timeRange "1day". case_literal timeRange "7d".
    case_literal timeRange "7days".
    case_literal timeRange "30d". case_literal timeRange "30days".
    unfold mapTimeRangeToValue, Usgs.endpoint.
    repeat match goal with
           | H : timeRange <> _ |- _ => apply String.eqb_neq in H; rewrite H; clear H
           end.
    reflexivity.
Qed.

Lemma time_range_resolution_witness :
  Usgs.endpoint (mapTimeRangeToValue "7d") = Usgs.endpoint "7d".
Proof.
  apply (proj1 (proj2 (time_range_resolution "7d"))); discriminate.
Defined.

End TimeRanges.

(** ** WeatherCondition adapter: condition codes and alerts *)

Section Conditions.
Import Owm.

Lemma isSevere_spec (w : OWMWeather) :
  isSevere w = true <-> In (weather_id w) SEVERE_WEATHER_CODES.
Proof.
  unfold isSevere. rewrite existsb_exists. split.
  - intros (x & Hin & Hx). apply Z.eqb_eq in Hx. rewrite Hx. exact Hin.
  - intro H. exists (weather_id w). split; [exact H | apply Z.eqb_refl].
Qed.

(** X4: [getSevereWeatherType] yields Flood exactly for the six codes of
    extreme rain and Storm for every other code; so of the condition codes the
    adapter calls severe, thunderstorms, heavy snow, squalls (771) and
    tornadoes are storms, and no code gives Earthquake or Wildfire. *)
Theorem severe_weather_type (weatherId : Z) :
  (getSevereWeatherType weatherId = Flood <->
   In weatherId [502; 503; 504; 511; 522; 531]%Z) /\
  (~ In weatherId [502; 503; 504; 511; 522; 531]%Z ->
   getSevereWeatherType weatherId = Storm).
Proof.
  assert (D : {In weatherId [502; 503; 504; 511; 522; 531]%Z} +
              {~ In weatherId [502; 503; 504; 511; 522; 531]%Z})
    by (apply in_dec; apply Z.eq_dec).
  assert (F : In weatherId [502; 503; 504; 511; 522; 531]%Z ->
              getSevereWeatherType weatherId = Flood).
  { simpl. intros [<-|[<-|[<-|[<-|[<-|[<-|[]]]]]]]; reflexivity. }
  assert (S : ~ In weatherId [502; 503; 504; 511; 522; 531]%Z ->
              getSevereWeatherType weatherId = Storm).
  { intro Hn. unfold getSevereWeatherType.
    destruct ((200 <=? weatherId) && (weatherId <? 300))%Z; [reflexivity|].
    destruct (existsb (Z.eqb weatherId) [502; 503; 504; 511; 522; 531]%Z) eqn:E.
    - exfalso. apply Hn. apply existsb_exists in E as (x & Hin & Hx).
      apply Z.eqb_eq in Hx. rewrite Hx. exact Hin.
    - rewrite andb_false_r.
      destruct ((600 <=? weatherId) && (weatherId <? 700) &&
                existsb (Z.eqb weatherId) [602; 622])%Z; [reflexivity|].
      destruct (weatherId =? 781)%Z; reflexivity. }
  split; [|exact S]. split; [|exact F].
  intro H. destruct D as [Hin|Hn]; [exact Hin|].
  rewrite (S Hn) in H. discriminate.
Qed.

Lemma severe_weather_type_witness : getSevereWeatherType 771 = Storm.
Proof.
  apply (proj2 (severe_weather_type 771)).
  simpl. intros [H|[H|[H|[H|[H|[H|[]]]]]]]; discriminate.
Defined.

Lemma find_first {A : Type} (p : A -> bool) (before after : list A) (x : A) :
  (forall y, In y before -> p y = false) -> p x = true ->
  find p (before ++ x :: after) = Some x.
Proof.
  intros Hb Hx. induction before as [|y before IH]; simpl.
  - rewrite Hx. reflexivity.
  - rewrite (Hb y) by (left; reflexivity). apply IH.
    intros z Hz. apply Hb. right. exact Hz.
Qed.

Lemma find_none_iff {A : Type} (p : A -> bool) (l : list A) :
  find p l = None <-> forall y, In y l -> p y = false.
Proof.
  split; [apply find_none|].
  induction l as [|y l IH]; intro H; simpl; [reflexivity|].
  rewrite (H y) by (left; reflexivity). apply IH.
  intros z Hz. apply H. right. exact Hz.
Qed.

Lemma not_severe (w : OWMWeather) :
  ~ In (weather_id w) SEVERE_WEATHER_CODES -> isSevere w = false.
Proof.
  intro H. destruct (isSevere w) eqn:E; [|reflexivity].
  apply isSevere_spec in E. contradiction.
Qed.

(** X5: [analyzeWeatherConditions] emits nothing when no current condition
    code is severe; otherwise it emits exactly one event, whose type comes
    from the first severe code of the list, located at the coordinates of the
    payload; its level is Watch under a heavy-rain forecast and the level of
    the wind rule otherwise. *)
Theorem one_call_condition_event (data : OWMOneCall) :
  ((forall w, In w (current_weather (current data)) ->
              ~ In (weather_id w) SEVERE_WEATHER_CODES) ->
   analyzeWeatherConditions data = []) /\
  (forall before w after,
      current_weather (current data) = before ++ w :: after ->
      (forall w', In w' before -> ~ In (weather_id w') SEVERE_WEATHER_CODES) ->
      In (weather_id w) SEVERE_WEATHER_CODES ->
      exists d,
        analyzeWeatherConditions data = [d] /\
        disasterType d = getSevereWeatherType (weather_id w) /\
        parseFloat (latitude d) = Num (lat data) /\
        parseFloat (longitude d) = Num (lon data) /\
        source d = OpenWeatherMap /\
        (heavyRainAhead data -> alertType d = Watch) /\
        (~ heavyRainAhead data ->
         alertType d = windLevel (current_wind_speed (current data)))).
Proof.
  split.
  - intro H. unfold analyzeWeatherConditions.
    assert (E : find isSevere (current_weather (current data)) = None).
    { apply find_none_iff. intros w Hw. apply not_severe. exact (H w Hw). }
    rewrite E. reflexivity.
  - intros before w after Hl Hb Hw. unfold analyzeWeatherConditions.
    assert (E : find isSevere (current_weather (current data)) = Some w).
    { rewrite Hl. apply find_first.
      - intros y Hy. apply not_severe. exact (Hb y Hy).
      - apply isSevere_spec. exact Hw. }
    rewrite E. eexists. split; [reflexivity|]. cbn [disasterType latitude longitude
      source alertType toString parseFloat].
    repeat split.
    + apply forecastAlertType_heavy.
    + intro Hn. unfold forecastAlertType.
      destruct (hourly data) as [hours|] eqn:Eh; [|reflexivity].
      destruct (existsb heavyRainHour (firstn 12 hours)) eqn:Ex; [|reflexivity].
      exfalso. apply Hn. apply existsb_exists in Ex as (hour & Hin & Hh).
      apply heavyRainHour_spec in Hh as (r & Hr & Hle).
      exists hours, hour, r. auto.
Qed.

Lemma one_call_condition_event_witness :
  exists d, analyzeWeatherConditions storm_with_forecast = [d] /\
            disasterType d = getSevereWeatherType 211.
Proof.
  destruct (proj2 (one_call_condition_event storm_with_forecast) []
                  {| weather_id := 211; main := "Thunderstorm";
                     description := "thunderstorm" |} [])
    as (d & H1 & H2 & _).
  - reflexivity.
  - intros ? [].
  - simpl. tauto.
  - exists d. split; assumption.
Defined.

End Conditions.

Section ConditionLevels.
Import Owm.

Lemma some_severe_found (weather : list OWMWeather) :
  (exists w, In w weather /\ In (weather_id w) SEVERE_WEATHER_CODES) ->
  exists w, find isSevere weather = Some w /\ In (weather_id w) SEVERE_WEATHER_CODES.
Proof.
  intros (w & Hin & Hw).
  destruct (find isSevere weather) as [w'|] eqn:E.
  - exists w'. split; [reflexivity|]. apply find_some in E as [_ E].
    apply isSevere_spec. exact E.
  - exfalso. apply isSevere_spec in Hw.
    rewrite (find_none _ _ E w Hin) in Hw. discriminate.
Qed.

(** X6: when some condition code of a current-weather payload is severe,
    [analyzeCurrentWeather] emits exactly one event, at the coordinates of
    the payload.  Its level is never below the rain-derived level and never
    above the maximum of the wind-derived and rain-derived levels; without
    a 3-hour rainfall of 25 mm or more it is the wind-derived level. *)
Theorem current_weather_level_bounds (data : OWMCurrentWeather) :
  (exists w, In w (weather data) /\ In (weather_id w) SEVERE_WEATHER_CODES) ->
  exists d,
    analyzeCurrentWeather data = [d] /\
    parseFloat (latitude d) = Num (coord_lat data) /\
    parseFloat (longitude d) = Num (coord_lon data) /\
    (severity (rainLevel (rain3h data)) <= severity (alertType d))%nat /\
    (severity (alertType d) <=
     severity (alert_max (windLevel (wind_speed data)) (rainLevel (rain3h data))))%nat /\
    (rain3h data < 25 -> alertType d = windLevel (wind_speed data)).
Proof.
  intro H. apply some_severe_found in H as (w & Hf & _).
  assert (Hl := @analyzeCurrentWeather_level data).
  unfold analyzeCurrentWeather in *. rewrite Hf in *.
  eexists. split; [reflexivity|].
  cbn [latitude longitude alertType toString parseFloat].
  split; [reflexivity|]. split; [reflexivity|].
  specialize (Hl ltac:(discriminate)). cbn [map alertType] in Hl.
  injection Hl as Hl. rewrite Hl.
  split; [|split].
  - destruct (rainLevel (rain3h data)); simpl; lia.
  - destruct (windLevel (wind_speed data)), (rainLevel (rain3h data)); simpl; lia.
  - intro Hr. unfold rainLevel.
    destruct (Qle_bool 50 (rain3h data)) eqn:E1; [apply Qle_bool_iff in E1; lra|].
    destruct (Qle_bool 25 (rain3h data)) eqn:E2; [apply Qle_bool_iff in E2; lra|].
    reflexivity.
Qed.

Lemma current_weather_level_bounds_witness :
  exists d, analyzeCurrentWeather storm_with_rain = [d] /\
            (severity (rainLevel (rain3h storm_with_rain)) <= severity (alertType d))%nat.
Proof.
  destruct (@current_weather_level_bounds storm_with_rain) as (d & H1 & _ & _ & H2 & _).
  - eexists. split; [left; reflexivity|]. simpl. tauto.
  - exists d. split; assumption.
Defined.

(** The keyword rules of [processWeatherAlerts], on the event name. *)
Definition alert_keyword_rules (event : string) (d : Disaster) : Prop :=
  (contains_ci event "flood" -> disasterType d = Flood) /\
  (~ contains_ci event "flood" -> contains_ci event "fire" -> disasterType d = Wildfire) /\
  (~ contains_ci event "flood" -> ~ contains_ci event "fire" -> disasterType d = Storm) /\
  (contains_ci event "warning" -> alertType d = Warning) /\
  (~ contains_ci event "warning" -> contains_ci event "watch" -> alertType d = Watch) /\
  (~ contains_ci event "warning" -> ~ contains_ci event "watch" ->
   alertType d = Advisory).

Lemma includes_keyword (event key : string) :
  toLowerCase key = key ->
  (includes (toLowerCase event) key = true <-> contains_ci event key) /\
  (includes (toLowerCase event) key = false <-> ~ contains_ci event key).
Proof.
  intro Hk. pose proof (includes_contains_ci event key) as H. rewrite Hk in H.
  split; [exact H|]. rewrite <- H.
  destruct (includes (toLowerCase event) key); split; congruence.
Qed.

(** X7: [processWeatherAlerts] emits one event per native alert, in the
    order of the payload, each at the coordinates of the payload.  The type
    is read off the event name, case-insensitively: "flood" gives Flood even
    when "fire" occurs too, then "fire" gives Wildfire, anything else Storm;
    the level likewise: "warning" wins over "watch", and a name with neither
    is an Advisory.  A payload without alerts gives no event. *)
Theorem native_alert_events (data : OWMOneCall) :
  Forall2 (fun alert d =>
             id d = OwmAlertId (lat data) (lon data) (start alert) /\
             parseFloat (latitude d) = Num (lat data) /\
             parseFloat (longitude d) = Num (lon data) /\
             source d = OpenWeatherMap /\
             alert_keyword_rules (alert_event alert) d)
          (match alerts data with Some l => l | None => [] end)
          (processWeatherAlerts data).
Proof.
  unfold processWeatherAlerts.
  destruct (alerts data) as [[|a l]|]; [constructor| |constructor].
  generalize (a :: l) as l2. clear a l. intro l2.
  induction l2 as [|b l IH]; constructor; [|exact IH].
  split; [reflexivity|]. split; [reflexivity|]. split; [reflexivity|].
  split; [reflexivity|]. unfold alert_keyword_rules.
  cbn [disasterType alertType].
  destruct (@includes_keyword (alert_event b) "flood" eq_refl) as [F1 F2].
  destruct (@includes_keyword (alert_event b) "fire" eq_refl) as [G1 G2].
  destruct (@includes_keyword (alert_event b) "warning" eq_refl) as [W1 W2].
  destruct (@includes_keyword (alert_event b) "watch" eq_refl) as [V1 V2].
  destruct (includes (toLowerCase (alert_event b)) "flood");
    destruct (includes (toLowerCase (alert_event b)) "fire");
    destruct (includes (toLowerCase (alert_event b)) "warning");
    destruct (includes (toLowerCase (alert_event b)) "watch");
    destruct (includes (toLowerCase (alert_event b)) "advisory");
    repeat split; intros; try reflexivity;
    try (exfalso; intuition congruence).
Qed.

(** X8: the two fetch functions of the WeatherCondition adapter never
    reject: whatever the key and whatever the feed yields, the promise
    resolves.  [fetchCurrentWeather] resolves to at most one event, and to
    none when the feed fails; [fetchWeatherOneCall] resolves to the events of
    the native alerts followed by at most one condition event. *)
Theorem weather_fetches_never_reject (key : string)
        (feedCurrent : Q -> Q -> upstream OWMCurrentWeather)
        (feedOneCall : Q -> Q -> upstream OWMOneCall) (latitude longitude : Q) :
  (exists ds,
      snd (fetchCurrentWeather key feedCurrent latitude longitude) = Ok ds /\
      (List.length ds <= 1)%nat /\
      (failed (feedCurrent latitude longitude) -> ds = [])) /\
  (exists ds,
      snd (fetchWeatherOneCall key feedOneCall latitude longitude) = Ok ds /\
      (failed (feedOneCall latitude longitude) -> ds = []) /\
      forall data,
        feedOneCall latitude longitude = Delivered data -> key <> EmptyString ->
        exists condition,
          ds = processWeatherAlerts data ++ condition /\
          (List.length condition <= 1)%nat /\
          List.length (processWeatherAlerts data) =
          List.length (match alerts data with Some l => l | None => [] end)).
Proof.
  split.
  - rewrite fetchCurrentWeather_settles. eexists. split; [reflexivity|].
    destruct (key =? EmptyString); [split; [simpl; lia | reflexivity]|].
    destruct (feedCurrent latitude longitude) as [data| | |];
      try (split; [simpl; lia | reflexivity]).
    split; [|intros []].
    unfold analyzeCurrentWeather. destruct (find isSevere (weather data)); simpl; lia.
  - rewrite fetchWeatherOneCall_settles. eexists. split; [reflexivity|]. split.
    + destruct (key =? EmptyString); [reflexivity|].
      destruct (feedOneCall latitude longitude); [intros []| | |]; reflexivity.
    + intros data Hd Hk. apply String.eqb_neq in Hk. rewrite Hk, Hd.
      exists (analyzeWeatherConditions data). split; [reflexivity|]. split.
      * unfold analyzeWeatherConditions.
        destruct (find isSevere (current_weather (current data))); simpl; lia.
      * symmetry. apply (Forall2_length (native_alert_events data)).
Qed.

Lemma weather_fetches_never_reject_witness :
  exists ds,
    snd (fetchCurrentWeather "0123456789abcdef" (fun _ _ => BadStatus 401)
                             28.6 77.2) = Ok ds /\
    (List.length ds <= 1)%nat /\
    (failed (@BadStatus OWMCurrentWeather 401) -> ds = []).
Proof.
  apply (proj1 (weather_fetches_never_reject
                  "0123456789abcdef" (fun _ _ => BadStatus 401)
                  (fun _ _ => Malformed) 28.6 77.2)).
Defined.

End ConditionLevels.

(** ** Great-circle distance: range *)

Section DistanceRange.
Import Api.
Local Open Scope R_scope.

Ltac lra := Lra.lra.
Ltac nra := Lra.nra.

Lemma Math_atan2_quadrant y x : 0 <= y -> 0 <= x -> Math_atan2 y x <= PI / 2.
Proof.
  intros Hy Hx. unfold Math_atan2. pose proof PI_RGT_0.
  destruct (Rlt_dec 0 x).
  - pose proof (atan_bound (y / x)). lra.
  - destruct (Rlt_dec x 0); [lra|].
    destruct (Rlt_dec 0 y); [lra|].
    destruct (Rlt_dec y 0); lra.
Qed.

Lemma calculateDistance_real_bounds (lat1 lon1 lat2 lon2 d : R) :
  calculateDistance (Real lat1) (Real lon1) (Real lat2) (Real lon2) = Real d ->
  0 <= d <= 6371 * PI.
Proof.
  rewrite calculateDistance_haversine. unfold Math_sqrt.
  destruct (Rle_dec 0 (haversine lat1 lon1 lat2 lon2)); [|discriminate].
  destruct (Rle_dec 0 (1 - haversine lat1 lon1 lat2 lon2)); [|discriminate].
  intro H. injection H as <-.
  pose proof (Math_atan2_nonneg (sqrt_pos (haversine lat1 lon1 lat2 lon2))
                                (sqrt_pos (1 - haversine lat1 lon1 lat2 lon2))).
  pose proof (Math_atan2_quadrant (sqrt_pos (haversine lat1 lon1 lat2 lon2))
                                  (sqrt_pos (1 - haversine lat1 lon1 lat2 lon2))).
  lra.
Qed.

(** X9: whatever the four numbers, also outside the ranges of latitude and
    longitude, [calculateDistance] is NaN or a distance between 0 and half the
    circumference of the sphere, 6371 * PI km. *)
Theorem distance_range (lat1 lon1 lat2 lon2 : R) :
  calculateDistance (Real lat1) (Real lon1) (Real lat2) (Real lon2) = RNaN \/
  exists d,
    calculateDistance (Real lat1) (Real lon1) (Real lat2) (Real lon2) = Real d /\
    0 <= d <= 6371 * PI.
Proof.
  destruct (calculateDistance (Real lat1) (Real lon1) (Real lat2) (Real lon2))
    as [d|] eqn:E.
  - right. exists d. split; [reflexivity|].
    exact (calculateDistance_real_bounds _ _ _ _ E).
  - left. reflexivity.
Qed.

End DistanceRange.

(** ** Filters by location *)

Section LocationFilters.
Import Api ByLocation.

Ltac lra := Lra.lra.

Lemma earthquakeWithin_alertWithin (lat lon radiusKm : Q) (d : Disaster) :
  earthquakeWithin lat lon radiusKm d = alertWithin lat lon radiusKm d.
Proof.
  unfold earthquakeWithin, alertWithin.
  destruct (latitude d) as [x|]; destruct (longitude d) as [y|]; try reflexivity.
  simpl. destruct x; reflexivity.
Qed.

Lemma alertWithin_withinRadius (lat lon radiusKm : Q) (d : Disaster) :
  alertWithin lat lon radiusKm d = withinRadius lat lon radiusKm d.
Proof. reflexivity. Qed.

(** X12: the filter of the seismic adapter and the filter of the
    weather-alert adapter keep the same events of every list: the test for
    missing coordinates, which only the second makes, changes nothing, since
    an empty text parses to NaN and no distance to NaN is within a radius.
    Without a radius both use 100 km. *)
Theorem location_filters_agree (events : list Disaster) (lat lon : Q)
        (radiusKm : option Q) :
  filterEarthquakesByLocation events lat lon radiusKm =
  filterAlertsByLocation events lat lon radiusKm /\
  filterAlertsByLocation events lat lon None =
  filterAlertsByLocation events lat lon (Some 100) /\
  forall d, is_empty (latitude d) = true \/ is_empty (longitude d) = true ->
            ~ In d (filterEarthquakesByLocation events lat lon radiusKm).
Proof.
  split; [|split].
  - unfold filterEarthquakesByLocation, filterAlertsByLocation.
    apply filter_ext. intro d. apply earthquakeWithin_alertWithin.
  - reflexivity.
  - intros d Hd Hin. unfold filterEarthquakesByLocation in Hin.
    apply filter_In in Hin as [_ Hin].
    rewrite earthquakeWithin_alertWithin in Hin. unfold alertWithin in Hin.
    destruct Hd as [Hd | Hd]; rewrite Hd in Hin; [|rewrite orb_true_r in Hin];
      discriminate.
Qed.

Lemma location_filters_agree_witness :
  ~ In {| id := NativeId "x"; disasterType := Earthquake; alertType := Watch;
          location := "nowhere"; latitude := EmptyText; longitude := TextOf (Num 0);
          source := USGS |}
       (filterEarthquakesByLocation
          [ {| id := NativeId "x"; disasterType := Earthquake; alertType := Watch;
               location := "nowhere"; latitude := EmptyText; longitude := TextOf (Num 0);
               source := USGS |} ] 0 0 (Some 1000)).
Proof.
  apply (proj2 (proj2 (location_filters_agree _ 0 0 (Some 1000)))).
  left. reflexivity.
Defined.

Lemma alertWithin_true (lat lon radiusKm : Q) (d : Disaster) :
  alertWithin lat lon radiusKm d = true <-> within lat lon radiusKm d.
Proof. apply withinRadius_within. Qed.

(** X13: the location filter is monotone in the radius: an event kept for a
    radius is kept for every larger one.  A negative radius keeps nothing;
    a radius of zero or more keeps every event located exactly at the
    centre. *)
Theorem location_filter_radius (events : list Disaster) (lat lon : Q) :
  (forall r1 r2 d,
      r1 <= r2 ->
      In d (filterAlertsByLocation events lat lon (Some r1)) ->
      In d (filterAlertsByLocation events lat lon (Some r2))) /\
  (forall r, r < 0 -> filterAlertsByLocation events lat lon (Some r) = []) /\
  (forall r d,
      0 <= r -> In d events ->
      latitude d = toString (Num lat) -> longitude d = toString (Num lon) ->
      In d (filterAlertsByLocation events lat lon (Some r))).
Proof.
  unfold filterAlertsByLocation, orDefault. split; [|split].
  - intros r1 r2 d Hr Hin. apply filter_In in Hin as [Hin Hw].
    apply filter_In. split; [exact Hin|].
    apply alertWithin_true in Hw as (H1 & H2 & dist & Hd & Hle).
    apply alertWithin_true. repeat split; try assumption.
    exists dist. split; [exact Hd|]. apply Qreals.Qle_Rle in Hr. lra.
  - intros r Hr.
    destruct (filter (alertWithin lat lon r) events) as [|d l] eqn:E; [reflexivity|].
    exfalso.
    assert (Hin : In d (filter (alertWithin lat lon r) events))
      by (rewrite E; left; reflexivity).
    apply filter_In in Hin as [_ Hw].
    apply alertWithin_true in Hw as (_ & _ & dist & Hd & Hle).
    apply Qreals.Qlt_Rlt in Hr. rewrite Q2R_zero in Hr.
    destruct (parseFloat (latitude d)) as [la|]; [|discriminate].
    destruct (parseFloat (longitude d)) as [lo|]; [|discriminate].
    cbn [toReal] in Hd. apply calculateDistance_real_bounds in Hd. lra.
  - intros r d Hr Hin Hla Hlo. apply filter_In. split; [exact Hin|].
    apply alertWithin_true. unfold within. rewrite Hla, Hlo.
    repeat split. exists 0%R. cbn [toReal parseFloat toString]. split.
    + rewrite calculateDistance_haversine, haversine_same.
      replace (1 - 0)%R with 1%R by lra.
      rewrite !Math_sqrt_ok by lra. rewrite sqrt_0, sqrt_1.
      f_equal. unfold Math_atan2.
      destruct (Rlt_dec 0 1); [|lra].
      replace (0 / 1)%R with 0%R by lra. rewrite atan_0. lra.
    + apply Qreals.Qle_Rle in Hr. rewrite Q2R_zero in Hr. exact Hr.
Qed.

Lemma location_filter_radius_witness :
  filterAlertsByLocation [Usgs.mapFeature (quake 4.5 77.0 28.0)] 28.6 77.2 (Some (-5)) = [].
Proof.
  apply (proj1 (proj2 (location_filter_radius
                         [Usgs.mapFeature (quake 4.5 77.0 28.0)] 28.6 77.2))).
  reflexivity.
Defined.

End LocationFilters.

(** ** Aggregation by location *)

Section AggregationByLocation.
Import Api ByLocation.

(** What the WeatherCondition adapter contributes for a centre. *)
Definition weatherDataAt (w : World) (lat lon : Q) : list Disaster :=
  if Owm.OWM_API_KEY (env_OPENWEATHERMAP_API_KEY w) (env_OWM_API_KEY w) =? EmptyString
  then []
  else match owm_onecall w lat lon with
       | Delivered data =>
           Owm.processWeatherAlerts data ++ Owm.analyzeWeatherConditions data
       | _ => []
       end.

Lemma getDisastersByLocation_settles (w : World) (lat lon : Q) (radius : option Q)
      (options : Options.t) :
  getDisastersByLocation w lat lon radius options =
  match snd (Usgs.fetchEarthquakeData (usgs w) (timeRangeOf options)) with
  | Throw _ =>
      ([FetchEarthquakeData (timeRangeOf options)],
       Throw "Failed to fetch disaster data for location")
  | Ok earthquakes =>
      match snd (Noaa.fetchWeatherAlerts (noaa w) None) with
      | Throw _ =>
          ([FetchEarthquakeData (timeRangeOf options); FetchWeatherAlerts None],
           Throw "Failed to fetch disaster data for location")
      | Ok weatherAlerts =>
          ([FetchEarthquakeData (timeRangeOf options); FetchWeatherAlerts None;
            FetchWeatherOneCall lat lon],
           Ok (filterByAlertTypes (Options.alertTypes options)
                 (filterByTypes (Options.types options)
                    (filterEarthquakesByLocation earthquakes lat lon
                                                 (Some (orDefault radius)) ++
                     filterAlertsByLocation weatherAlerts lat lon
                                            (Some (orDefault radius)) ++
                     weatherDataAt w lat lon))))
      end
  end.
Proof.
  unfold getDisastersByLocation. fold (timeRangeOf options).
  rewrite fetchEarthquakeData_settles, fetchWeatherAlerts_settles,
    fetchWeatherOneCall_settles.
  fold (weatherDataAt w lat lon). cbn [snd].
  destruct (usgs w (Usgs.endpoint (timeRangeOf options))); try reflexivity.
  destruct (noaa w None) as [alerts| | |]; try reflexivity.
  destruct (Noaa.mapNOAAResponseToDisasters alerts); reflexivity.
Qed.

(** X14: [getDisastersByLocation] awaits its three fetches one after the
    other: when the seismic fetch fails no other adapter is called, when the
    weather-alert fetch fails the WeatherCondition adapter is not called, and
    in both cases the call fails with its own message; otherwise the three
    adapters are called in order, the third for every latitude and
    longitude, zero included. *)
Theorem by_location_sequential (w : World) (lat lon : Q) (radius : option Q)
        (options : Options.t) :
  (failed (usgs w (Usgs.endpoint (timeRangeOf options))) ->
   getDisastersByLocation w lat lon radius options =
   ([FetchEarthquakeData (timeRangeOf options)],
    Throw "Failed to fetch disaster data for location")) /\
  (forall quakes,
      usgs w (Usgs.endpoint (timeRangeOf options)) = Delivered quakes ->
      failed (noaa w None) ->
      getDisastersByLocation w lat lon radius options =
      ([FetchEarthquakeData (timeRangeOf options); FetchWeatherAlerts None],
       Throw "Failed to fetch disaster data for location")) /\
  (forall quakes alerts weatherAlerts,
      usgs w (Usgs.endpoint (timeRangeOf options)) = Delivered quakes ->
      noaa w None = Delivered alerts ->
      Noaa.mapNOAAResponseToDisasters alerts = Ok weatherAlerts ->
      exists ds,
        getDisastersByLocation w lat lon radius options =
        ([FetchEarthquakeData (timeRangeOf options); FetchWeatherAlerts None;
          FetchWeatherOneCall lat lon], Ok ds)).
Proof.
  rewrite getDisastersByLocation_settles.
  rewrite fetchEarthquakeData_settles, fetchWeatherAlerts_settles. cbn [snd].
  split; [|split].
  - intro H. destruct (usgs w (Usgs.endpoint (timeRangeOf options)));
      [destruct H| | |]; reflexivity.
  - intros quakes Hq H. rewrite Hq.
    destruct (noaa w None); [destruct H| | |]; reflexivity.
  - intros quakes alerts weatherAlerts Hq Ha Hm. rewrite Hq, Ha, Hm.
    eexists. reflexivity.
Qed.

Lemma by_location_sequential_witness :
  getDisastersByLocation world_seismic_down 0 0 None delhi_query =
  ([FetchEarthquakeData "1day"], Throw "Failed to fetch disaster data for location").
Proof.
  apply (proj1 (by_location_sequential world_seismic_down 0 0 None delhi_query)).
  exact I.
Defined.

Lemma weatherDataAt_source (w : World) (lat lon : Q) (d : Disaster) :
  In d (weatherDataAt w lat lon) -> source d = OpenWeatherMap.
Proof.
  unfold weatherDataAt.
  destruct (_ =? EmptyString); [intros []|].
  destruct (owm_onecall w lat lon) as [data| | |]; try (intros []).
  intro H. apply in_app_or in H as [H | H].
  - pose proof (native_alert_events data) as F.
    revert H. induction F as [|a e l l' (_ & _ & _ & Hs & _) _ IH]; [intros []|].
    intros [<- | H]; [exact Hs | exact (IH H)].
  - unfold Owm.analyzeWeatherConditions in H.
    destruct (find Owm.isSevere _); [|destruct H].
    destruct H as [<- | []]. reflexivity.
Qed.

Lemma filterByTypes_In (types : option (list DisasterType)) (l : list Disaster)
      (d : Disaster) :
  In d (filterByTypes types l) -> In d l.
Proof.
  unfold filterByTypes. destruct (nonEmpty types); [|auto].
  intro H. apply filter_In in H. tauto.
Qed.

Lemma filterByAlertTypes_In (alertTypes : option (list AlertType)) (l : list Disaster)
      (d : Disaster) :
  In d (filterByAlertTypes alertTypes l) -> In d l.
Proof.
  unfold filterByAlertTypes. destruct (nonEmpty alertTypes); [|auto].
  intro H. apply filter_In in H. tauto.
Qed.

(** X15: every event that [getDisastersByLocation] returns from the seismic
    or the weather-alert feed has coordinates and lies within the radius
    (100 km when none is given) of the centre, for every centre, a latitude or
    longitude of zero included; the events of the WeatherCondition adapter are
    returned without a test of distance. *)
Theorem by_location_within_radius (w : World) (lat lon : Q) (radius : option Q)
        (options : Options.t) (ds : list Disaster) :
  snd (getDisastersByLocation w lat lon radius options) = Ok ds ->
  (forall d, In d ds -> source d <> OpenWeatherMap ->
             within lat lon (orDefault radius) d) /\
  (forall d, In d (filterByAlertTypes (Options.alertTypes options)
                     (filterByTypes (Options.types options) (weatherDataAt w lat lon))) ->
             In d ds).
Proof.
  rewrite getDisastersByLocation_settles.
  destruct (snd (Usgs.fetchEarthquakeData (usgs w) (timeRangeOf options)))
    as [earthquakes|]; [|discriminate].
  destruct (snd (Noaa.fetchWeatherAlerts (noaa w) None)) as [weatherAlerts|];
    [|discriminate].
  cbn [snd]. intro H. injection H as <-. split.
  - intros d Hin Hs.
    apply filterByAlertTypes_In, filterByTypes_In in Hin.
    apply in_app_or in Hin as [Hin | Hin]; [|apply in_app_or in Hin as [Hin | Hin]].
    + apply filter_In in Hin as [_ Hin].
      rewrite earthquakeWithin_alertWithin in Hin. apply alertWithin_true. exact Hin.
    + apply filter_In in Hin as [_ Hin]. apply alertWithin_true. exact Hin.
    + exfalso. apply Hs. exact (weatherDataAt_source _ _ _ _ Hin).
  - intros d Hin.
    unfold filterByAlertTypes, filterByTypes in *.
    destruct (nonEmpty (Options.alertTypes options)) as [ats|];
      destruct (nonEmpty (Options.types options)) as [ts|];
      repeat (rewrite filter_In in Hin); repeat (rewrite filter_In);
      rewrite ?in_app_iff; tauto.
Qed.

(** No earthquake, no alert, a thunderstorm over the queried point. *)
Definition world_quiet : World :=
  {| env_OPENWEATHERMAP_API_KEY := Some "0123456789abcdef";
     env_OWM_API_KEY := None;
     usgs := fun _ => Delivered {| Usgs.features := [] |};
     noaa := fun _ => Delivered {| Noaa.features := [] |};
     owm_weather := fun _ _ => NetworkFailure;
     owm_onecall := fun _ _ => Delivered storm_with_forecast |}.

Lemma by_location_within_radius_witness :
  exists d, In d (Owm.analyzeWeatherConditions storm_with_forecast).
Proof.
  eexists.
  apply (proj2 (@by_location_within_radius
                  world_quiet 0 0 (Some 10) (equator_query 10)
                  (Owm.analyzeWeatherConditions storm_with_forecast) eq_refl)).
  simpl. left. reflexivity.
Defined.

(** On the equator [getDisastersByLocation] does filter: the earthquake at
    (0, 0) is not returned for the centre (0, 0.1) and a radius of 10 km. *)
Lemma by_location_filters_on_equator :
  snd (getDisastersByLocation world_origin 0 0.1 (Some 10) (equator_query 10)) =
  Ok (Owm.analyzeWeatherConditions storm_with_forecast).
Proof.
  rewrite getDisastersByLocation_settles.
  change (snd (Usgs.fetchEarthquakeData (usgs world_origin)
                 (timeRangeOf (equator_query 10))))
    with (Ok [Usgs.mapFeature quake_at_origin]).
  change (snd (Noaa.fetchWeatherAlerts (noaa world_origin) None))
    with (@Ok (list Disaster) []).
  cbn [snd]. f_equal.
  unfold filterEarthquakesByLocation, orDefault. cbn [filter].
  rewrite earthquakeWithin_alertWithin, alertWithin_withinRadius.
  rewrite (proj1 withinRadius_origin). reflexivity.
Qed.

End AggregationByLocation.

(** ** Aggregation: the filters together *)

Section Filters.
Import Api ByLocation.

(** [l1] is [l2] with some elements removed, the others in their order. *)
Inductive subseq {A : Type} : list A -> list A -> Prop :=
| subseq_nil : subseq [] []
| subseq_keep x l1 l2 : subseq l1 l2 -> subseq (x :: l1) (x :: l2)
| subseq_drop x l1 l2 : subseq l1 l2 -> subseq l1 (x :: l2).

Lemma subseq_refl {A : Type} (l : list A) : subseq l l.
Proof. induction l; constructor; assumption. Qed.

Lemma subseq_trans {A : Type} (l1 l2 l3 : list A) :
  subseq l1 l2 -> subseq l2 l3 -> subseq l1 l3.
Proof.
  intros H12 H23. revert l1 H12.
  induction H23 as [|x l2 l3 _ IH|x l2 l3 _ IH]; intros l1 H12.
  - exact H12.
  - inversion H12; subst; constructor; auto.
  - constructor. auto.
Qed.

Lemma filter_subseq {A : Type} (p : A -> bool) (l : list A) : subseq (filter p l) l.
Proof.
  induction l as [|x l IH]; simpl; [constructor|].
  destruct (p x); constructor; exact IH.
Qed.

Lemma filterByTypes_spec (types : option (list DisasterType)) (l : list Disaster) :
  subseq (filterByTypes types l) l /\
  forall d, In d (filterByTypes types l) <->
            In d l /\ (forall ts, types = Some ts -> ts <> [] -> In (disasterType d) ts).
Proof.
  unfold filterByTypes. destruct types as [[|t ts]|]; simpl.
  - split; [apply subseq_refl|]. intro d. split; [|tauto].
    intro H. split; [exact H|]. intros ts E Hne. injection E as <-. congruence.
  - split; [apply filter_subseq|]. intro d. rewrite filter_In.
    assert (E : existsb (DisasterType_eqb (disasterType d)) (t :: ts) = true <->
                In (disasterType d) (t :: ts)).
    { rewrite existsb_exists. split.
      - intros (x & Hin & Hx). destruct (disasterType d), x; try discriminate; exact Hin.
      - intro Hin. exists (disasterType d). split; [exact Hin|].
        destruct (disasterType d); reflexivity. }
    rewrite E. split.
    + intros [H1 H2]. split; [exact H1|]. intros ts' E' _.
      injection E' as <-. exact H2.
    + intros [H1 H2]. split; [exact H1|]. apply (H2 _ eq_refl). discriminate.
  - split; [apply subseq_refl|]. intro d. split; [|tauto].
    intro H. split; [exact H|]. discriminate.
Qed.

Lemma filterByAlertTypes_spec (alertTypes : option (list AlertType)) (l : list Disaster) :
  subseq (filterByAlertTypes alertTypes l) l /\
  forall d, In d (filterByAlertTypes alertTypes l) <->
            In d l /\
            (forall ats, alertTypes = Some ats -> ats <> [] -> In (alertType d) ats).
Proof.
  unfold filterByAlertTypes. destruct alertTypes as [[|t ts]|]; simpl.
  - split; [apply subseq_refl|]. intro d. split; [|tauto].
    intro H. split; [exact H|]. intros ts E Hne. injection E as <-. congruence.
  - split; [apply filter_subseq|]. intro d. rewrite filter_In.
    assert (E : existsb (AlertType_eqb (alertType d)) (t :: ts) = true <->
                In (alertType d) (t :: ts)).
    { rewrite existsb_exists. split.
      - intros (x & Hin & Hx). destruct (alertType d), x; try discriminate; exact Hin.
      - intro Hin. exists (alertType d). split; [exact Hin|].
        destruct (alertType d); reflexivity. }
    rewrite E. split.
    + intros [H1 H2]. split; [exact H1|]. intros ts' E' _.
      injection E' as <-. exact H2.
    + intros [H1 H2]. split; [exact H1|]. apply (H2 _ eq_refl). discriminate.
  - split; [apply subseq_refl|]. intro d. split; [|tauto].
    intro H. split; [exact H|]. discriminate.
Qed.

Lemma filterByLocation_spec (options : Options.t) (l : list Disaster) :
  subseq (filterByLocation options l) l /\
  forall d, In d (filterByLocation options l) <->
            In d l /\
            (forall lat lon radius,
                truthy (Options.latitude options) = Some lat ->
                truthy (Options.longitude options) = Some lon ->
                truthy (Options.radius options) = Some radius ->
                within lat lon radius d).
Proof.
  destruct (truthy (Options.latitude options)) as [lat|] eqn:E1;
    [destruct (truthy (Options.longitude options)) as [lon|] eqn:E2;
     [destruct (truthy (Options.radius options)) as [radius|] eqn:E3|]|].
  - destruct (filterByLocation_within options l E1 E2 E3) as [Hf Hin].
    split; [rewrite Hf; apply filter_subseq|].
    intro d. rewrite Hin. split.
    + intros [H1 H2]. split; [exact H1|]. intros ? ? ? [= <-] [= <-] [= <-]. exact H2.
    + intros [H1 H2]. split; [exact H1|]. apply H2; reflexivity.
  - rewrite filterByLocation_skipped by auto.
    split; [apply subseq_refl|]. intro d. split; [|tauto].
    intro H. split; [exact H|]. discriminate.
  - rewrite filterByLocation_skipped by auto.
    split; [apply subseq_refl|]. intro d. split; [|tauto].
    intro H. split; [exact H|]. discriminate.
  - rewrite filterByLocation_skipped by auto.
    split; [apply subseq_refl|]. intro d. split; [|tauto].
    intro H. split; [exact H|]. discriminate.
Qed.

(** X16: when the three fetches succeed, [getAllDisasters] returns the
    events of the seismic adapter, then those of the weather-alert adapter,
    then those of the WeatherCondition adapter, with some removed and none
    changed, added or reordered.  An event is returned exactly when its type
    is in a non-empty [types], its level is in a non-empty [alertTypes], and
    it lies within the radius when latitude, longitude and radius are all
    non-zero; an empty [types] or [alertTypes] filters nothing. *)
Theorem all_disasters_filters (w : World) (options : Options.t)
        (earthquakes weatherAlerts weatherData : list Disaster) :
  snd (Usgs.fetchEarthquakeData (usgs w) (timeRangeOf options)) = Ok earthquakes ->
  snd (Noaa.fetchWeatherAlerts (noaa w) None) = Ok weatherAlerts ->
  snd (weatherPromise w options) = Ok weatherData ->
  exists ds,
    snd (getAllDisasters w options) = Ok ds /\
    subseq ds (earthquakes ++ weatherAlerts ++ weatherData) /\
    forall d,
      In d ds <->
      In d (earthquakes ++ weatherAlerts ++ weatherData) /\
      (forall ts, Options.types options = Some ts -> ts <> [] ->
                  In (disasterType d) ts) /\
      (forall ats, Options.alertTypes options = Some ats -> ats <> [] ->
                   In (alertType d) ats) /\
      (forall lat lon radius,
          truthy (Options.latitude options) = Some lat ->
          truthy (Options.longitude options) = Some lon ->
          truthy (Options.radius options) = Some radius ->
          within lat lon radius d).
Proof.
  intros He Ha Hw. rewrite getAllDisasters_result, He, Ha, Hw.
  eexists. split; [reflexivity|]. unfold filtered.
  set (all := earthquakes ++ weatherAlerts ++ weatherData).
  destruct (filterByTypes_spec (Options.types options) all) as [S1 M1].
  destruct (filterByAlertTypes_spec (Options.alertTypes options)
              (filterByTypes (Options.types options) all)) as [S2 M2].
  destruct (filterByLocation_spec options
              (filterByAlertTypes (Options.alertTypes options)
                 (filterByTypes (Options.types options) all))) as [S3 M3].
  split.
  - exact (subseq_trans S3 (subseq_trans S2 S1)).
  - intro d. rewrite M3, M2, M1. tauto.
Qed.

Lemma all_disasters_filters_witness :
  exists ds,
    snd (getAllDisasters world_weather_down delhi_query) = Ok ds /\
    subseq ds ([Usgs.mapFeature (quake 4.5 77.0 28.0)] ++ [] ++ []).
Proof.
  destruct (@all_disasters_filters world_weather_down delhi_query
              [Usgs.mapFeature (quake 4.5 77.0 28.0)] [] [] eq_refl eq_refl eq_refl)
    as (ds & H1 & H2 & _).
  exists ds. split; assumption.
Defined.

Lemma filter_swap {A : Type} (p q : A -> bool) (l : list A) :
  filter p (filter q l) = filter q (filter p l).
Proof.
  induction l as [|x l IH]; [reflexivity|]. simpl.
  destruct (p x) eqn:Ep, (q x) eqn:Eq; simpl; rewrite ?Ep, ?Eq, IH; reflexivity.
Qed.

Lemma filter_twice {A : Type} (p : A -> bool) (l : list A) :
  filter p (filter p l) = filter p l.
Proof.
  induction l as [|x l IH]; [reflexivity|]. simpl.
  destruct (p x) eqn:Ep; simpl; rewrite ?Ep, IH; reflexivity.
Qed.

Lemma filterByTypes_filter (types : option (list DisasterType)) (p : Disaster -> bool)
      (l : list Disaster) :
  filter p (filterByTypes types l) = filterByTypes types (filter p l).
Proof.
  unfold filterByTypes. destruct (nonEmpty types); [apply filter_swap | reflexivity].
Qed.

Lemma filterByAlertTypes_filter (alertTypes : option (list AlertType))
      (p : Disaster -> bool) (l : list Disaster) :
  filter p (filterByAlertTypes alertTypes l) = filterByAlertTypes alertTypes (filter p l).
Proof.
  unfold filterByAlertTypes. destruct (nonEmpty alertTypes);
    [apply filter_swap | reflexivity].
Qed.

(** X17: for a centre and a radius that are all non-zero the two entry
    points are related: what [getAllDisasters] returns is what
    [getDisastersByLocation] returns for the same world and options, less the
    events of the WeatherCondition adapter that lie outside the radius; and
    when the second fails so does the first. *)
Theorem all_disasters_refines_by_location (w : World) (options : Options.t)
        (lat lon radius : Q) :
  truthy (Options.latitude options) = Some lat ->
  truthy (Options.longitude options) = Some lon ->
  truthy (Options.radius options) = Some radius ->
  (forall ds,
      snd (getDisastersByLocation w lat lon (Some radius) options) = Ok ds ->
      snd (getAllDisasters w options) = Ok (filter (withinRadius lat lon radius) ds)) /\
  (forall msg,
      snd (getDisastersByLocation w lat lon (Some radius) options) = Throw msg ->
      snd (getAllDisasters w options) = Throw "Failed to fetch disaster data").
Proof.
  intros H1 H2 H3.
  rewrite getAllDisasters_result, getDisastersByLocation_settles.
  unfold weatherPromise. rewrite H1, H2, fetchWeatherOneCall_settles.
  fold (weatherDataAt w lat lon). cbn [snd].
  destruct (snd (Usgs.fetchEarthquakeData (usgs w) (timeRangeOf options)))
    as [earthquakes|]; [|split; [discriminate | reflexivity]].
  destruct (snd (Noaa.fetchWeatherAlerts (noaa w) None)) as [weatherAlerts|];
    [|split; [discriminate | reflexivity]].
  cbn [snd]. split; [|discriminate].
  intros ds H. injection H as <-. f_equal.
  unfold filtered. rewrite (filterByLocation_applied _ _ H1 H2 H3).
  rewrite !filterByAlertTypes_filter, !filterByTypes_filter.
  f_equal. f_equal.
  unfold filterEarthquakesByLocation, filterAlertsByLocation, orDefault.
  rewrite !filter_app.
  rewrite (filter_ext _ _ (earthquakeWithin_alertWithin lat lon radius)).
  change (alertWithin lat lon radius) with (withinRadius lat lon radius).
  rewrite !filter_twice. reflexivity.
Qed.

(** A query around Delhi with a radius of 50 km. *)
Definition delhi_radius_query : Options.t :=
  {| Options.types := None; Options.alertTypes := None; Options.timeRange := None;
     Options.latitude := Some (Num 28.6); Options.longitude := Some (Num 77.2);
     Options.radius := Some (Num 50) |}.

Lemma all_disasters_refines_by_location_witness :
  snd (getAllDisasters world_seismic_down delhi_radius_query) =
  Throw "Failed to fetch disaster data".
Proof.
  refine (proj2 (@all_disasters_refines_by_location
                   world_seismic_down delhi_radius_query
                   28.6 77.2 50 eq_refl eq_refl eq_refl)
                "Failed to fetch disaster data for location" eq_refl).
Defined.

End Filters.

(** ** Routes over the whole collection *)

Section WholeCollection.
Import Api ByLocation Routes.

(** [getAllDisasters()] calls the seismic adapter for the last day and the
    weather-alert adapter, and returns their events unfiltered. *)
Lemma getAllDisasters_default (w : World) :
  getAllDisasters w noOptions =
  ([FetchEarthquakeData "1day"; FetchWeatherAlerts None],
   match snd (Usgs.fetchEarthquakeData (usgs w) "1day"),
         snd (Noaa.fetchWeatherAlerts (noaa w) None) with
   | Ok earthquakes, Ok weatherAlerts => Ok (earthquakes ++ weatherAlerts)
   | _, _ => Throw "Failed to fetch disaster data"
   end).
Proof.
  rewrite (surjective_pairing (getAllDisasters w noOptions)).
  rewrite getAllDisasters_calls, getAllDisasters_result. f_equal.
  change (snd (weatherPromise w noOptions)) with (@Ok (list Disaster) []).
  change (timeRangeOf noOptions) with "1day".
  destruct (snd (Usgs.fetchEarthquakeData (usgs w) "1day")); [|reflexivity].
  destruct (snd (Noaa.fetchWeatherAlerts (noaa w) None)); [|reflexivity].
  rewrite app_nil_r. reflexivity.
Qed.

(** The names of the properties that every object inherits.  The lookup
    [noaaSeverityToAlertType[severity]] yields such a property for a severity
    of that name; the result is then no level. *)
Definition inherited_names : list string :=
  [ "constructor"; "hasOwnProperty"; "isPrototypeOf"; "propertyIsEnumerable";
    "toLocaleString"; "toString"; "valueOf"; "__proto__";
    "__defineGetter__"; "__defineSetter__"; "__lookupGetter__"; "__lookupSetter__" ].

(** No severity of the feed is such a name: every alert gets a level. *)
Definition plain_severities (alerts : Noaa.NOAAResponse) : Prop :=
  forall feature, In feature (Noaa.features alerts) ->
                  ~ In (Noaa.severity_text feature) inherited_names.

(** X18: the statistics route calls the seismic adapter (for the last day)
    and the weather-alert adapter and never the WeatherCondition adapter,
    whatever the key and the feeds.  It answers 500 with a fixed message
    when one of the two fetches fails.  Otherwise, for a weather-alert feed
    whose severities are not names of inherited properties, it answers the
    statistics of the earthquakes followed by the alerts, and the three
    counts add up to the number of these events. *)
Theorem stats_route (w : World) :
  fst (statsRoute w) = [FetchEarthquakeData "1day"; FetchWeatherAlerts None] /\
  (seismic_or_alert_feed_fails w noOptions ->
   snd (statsRoute w) = Status 500 "Failed to fetch disaster statistics") /\
  (forall quakes alerts weatherAlerts,
      usgs w "all_day.geojson" = Delivered quakes ->
      noaa w None = Delivered alerts ->
      plain_severities alerts ->
      Noaa.mapNOAAResponseToDisasters alerts = Ok weatherAlerts ->
      exists stats,
        snd (statsRoute w) = Json stats /\
        stats = getDisasterStats (Usgs.mapUSGSResponseToDisasters quakes ++ weatherAlerts) /\
        (warnings stats + watches stats + advisories stats =
         List.length (Usgs.features quakes) + List.length weatherAlerts)%nat).
Proof.
  unfold statsRoute. rewrite getAllDisasters_default.
  rewrite fetchEarthquakeData_settles, fetchWeatherAlerts_settles. cbn [snd].
  change (Usgs.endpoint "1day") with "all_day.geojson".
  split; [|split].
  - destruct (usgs w "all_day.geojson"); try reflexivity;
      destruct (noaa w None) as [alerts| | |]; try reflexivity;
      destruct (Noaa.mapNOAAResponseToDisasters alerts); reflexivity.
  - unfold seismic_or_alert_feed_fails.
    change (Usgs.endpoint (timeRangeOf noOptions)) with "all_day.geojson".
    intros [H | [H | (data & e & H1 & H2)]].
    + destruct (usgs w "all_day.geojson"); [destruct H| | |]; reflexivity.
    + destruct (noaa w None); [destruct H| | |];
        destruct (usgs w "all_day.geojson"); reflexivity.
    + rewrite H1, H2. destruct (usgs w "all_day.geojson"); reflexivity.
  - intros quakes alerts weatherAlerts Hq Ha _ Hm. rewrite Hq, Ha, Hm.
    eexists. split; [reflexivity|]. split; [reflexivity|].
    unfold getDisasterStats. cbn [warnings watches advisories].
    rewrite count_by_alertType, length_app.
    unfold Usgs.mapUSGSResponseToDisasters. rewrite length_map. reflexivity.
Qed.

Lemma stats_route_witness :
  snd (statsRoute world_seismic_down) = Status 500 "Failed to fetch disaster statistics" /\
  exists stats,
    snd (statsRoute world_alert_without_geometry) = Json stats /\
    stats = getDisasterStats (Usgs.mapUSGSResponseToDisasters {| Usgs.features := [] |}
                              ++ [alert_at_origin]) /\
    (warnings stats + watches stats + advisories stats =
     List.length (Usgs.features {| Usgs.features := [] |}) +
     List.length [alert_at_origin])%nat.
Proof.
  split.
  - apply (proj1 (proj2 (stats_route world_seismic_down))). left. exact I.
  - apply (proj2 (proj2 (stats_route world_alert_without_geometry))
             {| Usgs.features := [] |}
             {| Noaa.features := [alert "Flood Warning" None] |}).
    + reflexivity.
    + reflexivity.
    + intros feature [<- | []]. simpl.
      intros [H|[H|[H|[H|[H|[H|[H|[H|[H|[H|[H|[H|[]]]]]]]]]]]]]; discriminate.
    + reflexivity.
Defined.

Variable template : ident -> string.

Lemma usgs_event_idText (feature : Usgs.USGSFeature) :
  idText template (id (Usgs.mapFeature feature)) = Usgs.feature_id feature /\
  source (Usgs.mapFeature feature) = USGS.
Proof.
  unfold Usgs.mapFeature. destruct (Usgs.coordinates feature) as [[? ?] ?].
  split; reflexivity.
Qed.

Lemma find_app {A : Type} (p : A -> bool) (l1 l2 : list A) :
  find p (l1 ++ l2) = match find p l1 with Some x => Some x | None => find p l2 end.
Proof.
  induction l1 as [|x l1 IH]; [reflexivity|]. simpl.
  destruct (p x); [reflexivity | exact IH].
Qed.

(** X19: the route of one event by identifier looks the identifier up among
    the earthquakes, then among the alerts, of a call without options.  It
    answers 404 exactly when neither list holds an event with this
    identifier, the first earthquake with this identifier when there is one,
    else the first such alert, and 500 when a fetch fails; an event of the
    WeatherCondition adapter is never found, its adapter not being called. *)
Theorem disaster_route (w : World) (id_param : string)
        (quakes : Usgs.USGSResponse) (alerts : Noaa.NOAAResponse)
        (weatherAlerts : list Disaster) :
  usgs w "all_day.geojson" = Delivered quakes ->
  noaa w None = Delivered alerts ->
  Noaa.mapNOAAResponseToDisasters alerts = Ok weatherAlerts ->
  let earthquakes := Usgs.mapUSGSResponseToDisasters quakes in
  let matches := fun d => idText template (id d) =? id_param in
  fst (disasterRoute template w id_param) =
    [FetchEarthquakeData "1day"; FetchWeatherAlerts None] /\
  (snd (disasterRoute template w id_param) = Status 404 "Disaster not found" <->
   forall d, In d (earthquakes ++ weatherAlerts) -> idText template (id d) <> id_param) /\
  (forall d, snd (disasterRoute template w id_param) = Json d ->
             idText template (id d) = id_param /\
             In d (earthquakes ++ weatherAlerts) /\
             source d <> OpenWeatherMap /\
             (find matches earthquakes = Some d \/
              find matches earthquakes = None /\ find matches weatherAlerts = Some d)) /\
  (forall code message,
      snd (disasterRoute template w id_param) = Status code message ->
      code = 404%Z).
Proof.
  intros Hq Ha Hm earthquakes matches.
  unfold disasterRoute. rewrite getAllDisasters_default.
  rewrite fetchEarthquakeData_settles, fetchWeatherAlerts_settles. cbn [snd].
  change (Usgs.endpoint "1day") with "all_day.geojson".
  rewrite Hq, Ha, Hm. fold earthquakes. fold matches.
  assert (Hsrc : forall d, In d (earthquakes ++ weatherAlerts) ->
                           source d <> OpenWeatherMap).
  { intros d Hin. apply in_app_or in Hin as [Hin | Hin].
    - unfold earthquakes, Usgs.mapUSGSResponseToDisasters in Hin.
      apply in_map_iff in Hin as (f & <- & _).
      rewrite (proj2 (usgs_event_idText f)). discriminate.
    - unfold Noaa.mapNOAAResponseToDisasters in Hm. apply mapM_Forall2 in Hm.
      revert Hin. induction Hm as [|f e l l' Hfe _ IH]; [intros []|].
      intros [<- | Hin]; [|exact (IH Hin)].
      unfold Noaa.mapFeature in Hfe.
      destruct (Noaa.extractCoordinates (Noaa.geometry f)) as [[? ?]|];
        [|discriminate].
      injection Hfe as <-. discriminate. }
  destruct (find matches (earthquakes ++ weatherAlerts)) as [d|] eqn:E.
  - cbn [fst snd]. split; [reflexivity|]. split; [|split].
    + split; [discriminate|]. intro H. exfalso.
      apply find_some in E as [Hin Hd]. apply String.eqb_eq in Hd.
      exact (H d Hin Hd).
    + intros d' [= <-]. pose proof E as E'.
      apply find_some in E' as [Hin Hd]. apply String.eqb_eq in Hd.
      split; [exact Hd|]. split; [exact Hin|]. split; [exact (Hsrc d Hin)|].
      rewrite find_app in E.
      destruct (find matches earthquakes); [left; exact E | right; auto].
    + intros code message H. discriminate.
  - cbn [fst snd]. split; [reflexivity|]. split; [|split].
    + split; [|reflexivity]. intros _ d Hin Hd.
      apply String.eqb_eq in Hd. pose proof (find_none _ _ E d Hin) as Hn.
      unfold matches in Hn. cbv beta in Hn. congruence.
    + intros d H. discriminate.
    + intros code message [= <- _]. reflexivity.
Qed.

End WholeCollection.

Lemma disaster_route_witness :
  fst (Routes.disasterRoute (fun _ => "owm") world_origin "us7000abcd") =
  [FetchEarthquakeData "1day"; FetchWeatherAlerts None].
Proof.
  apply (@disaster_route (fun _ => "owm") world_origin "us7000abcd"
           {| Usgs.features := [quake_at_origin] |} {| Noaa.features := [] |} []
           eq_refl eq_refl eq_refl).
Defined.

(** ** Weather-alert adapter: redundant lexicon entries *)

Section LexiconBase.
Import Noaa.

(** The entries whose key contains no earlier key. *)
Fixpoint prune (seen : list string) (entries : list (string * DisasterType))
  : list (string * DisasterType) :=
  match entries with
  | [] => []
  | (key, value) :: rest =>
      if existsb (fun s => includes (toLowerCase key) (toLowerCase s)) seen
      then prune seen rest
      else (key, value) :: prune (key :: seen) rest
  end.

Definition baseLexicon : list (string * DisasterType) :=
  [ ("Tornado", Storm); ("Severe Thunderstorm", Storm); ("Flash Flood", Flood);
    ("Flood", Flood); ("Hurricane", Storm); ("Tropical Storm", Storm);
    ("Winter Storm", Storm); ("Blizzard", Storm); ("Tsunami", Flood);
    ("Red Flag", Wildfire); ("Fire Weather", Wildfire); ("Fire Warning", Wildfire);
    ("Wildfire", Wildfire) ].

Lemma string_app_assoc (a b c : string) :
  ((a ++ b) ++ c)%string = (a ++ (b ++ c))%string.
Proof. induction a as [|x a IH]; simpl; [reflexivity | rewrite IH; reflexivity]. Qed.

Lemma includes_trans (s k' k : string) :
  includes s k' = true -> includes k' k = true -> includes s k = true.
Proof.
  rewrite !includes_spec. intros (p1 & q1 & ->) (p2 & q2 & ->).
  exists (p1 ++ p2)%string, (q2 ++ q1)%string.
  rewrite !string_app_assoc. reflexivity.
Qed.

Lemma shadowed_no_match (event key : string) (seen : list string) :
  (forall s, In s seen -> includes (toLowerCase event) (toLowerCase s) = false) ->
  existsb (fun s => includes (toLowerCase key) (toLowerCase s)) seen = true ->
  includes (toLowerCase event) (toLowerCase key) = false.
Proof.
  intros Hseen Hex. apply existsb_exists in Hex as (s & Hin & Hs).
  destruct (includes (toLowerCase event) (toLowerCase key)) eqn:E; [|reflexivity].
  rewrite <- (Hseen s Hin). symmetry. exact (includes_trans _ _ _ E Hs).
Qed.

Lemma entriesLoop_prune (entries : list (string * DisasterType)) (seen : list string)
      (event : string) (default : DisasterType) :
  (forall s, In s seen -> includes (toLowerCase event) (toLowerCase s) = false) ->
  entriesLoop (prune seen entries) event default = entriesLoop entries event default.
Proof.
  revert seen. induction entries as [|[key value] rest IH]; intros seen Hseen;
    [reflexivity|].
  simpl.
  destruct (existsb (fun s => includes (toLowerCase key) (toLowerCase s)) seen) eqn:Ex.
  - rewrite (shadowed_no_match _ _ _ Hseen Ex). apply IH. exact Hseen.
  - simpl. destruct (includes (toLowerCase event) (toLowerCase key)) eqn:E;
      [reflexivity|].
    apply IH. intros s [<- | Hs]; [exact E | exact (Hseen s Hs)].
Qed.

Lemma existsb_prune (entries : list (string * DisasterType)) (seen : list string)
      (event : string) :
  (forall s, In s seen -> includes (toLowerCase event) (toLowerCase s) = false) ->
  existsb (fun key => includes (toLowerCase event) (toLowerCase key))
          (map fst (prune seen entries)) =
  existsb (fun key => includes (toLowerCase event) (toLowerCase key))
          (map fst entries).
Proof.
  revert seen. induction entries as [|[key value] rest IH]; intros seen Hseen;
    [reflexivity|].
  simpl.
  destruct (existsb (fun s => includes (toLowerCase key) (toLowerCase s)) seen) eqn:Ex.
  - rewrite (shadowed_no_match _ _ _ Hseen Ex). apply IH. exact Hseen.
  - simpl. destruct (includes (toLowerCase event) (toLowerCase key)) eqn:E;
      [reflexivity|].
    apply IH. intros s [<- | Hs]; [exact E | exact (Hseen s Hs)].
Qed.

(** X20: of the 31 entries of the hazard lexicon, the 18 whose key ends in
    " Warning" or " Watch" after an earlier key never decide anything: for
    every event name, the pre-filter and the type resolution give what the 13
    entries with the keys Tornado, Severe Thunderstorm, Flash Flood, Flood,
    Hurricane, Tropical Storm, Winter Storm, Blizzard, Tsunami, Red Flag,
    Fire Weather, Fire Warning and Wildfire give, in this order. *)
Theorem lexicon_base_entries (feature : NOAAAlert) (default : DisasterType) :
  List.length noaaEventToDisasterType = 31%nat /\
  List.length baseLexicon = 13%nat /\
  relevant feature =
    existsb (fun key => includes (toLowerCase (event feature)) (toLowerCase key))
            (map fst baseLexicon) /\
  entriesLoop noaaEventToDisasterType (event feature) default =
    entriesLoop baseLexicon (event feature) default.
Proof.
  assert (P : prune [] noaaEventToDisasterType = baseLexicon) by reflexivity.
  split; [reflexivity|]. split; [reflexivity|]. split.
  - unfold relevant. rewrite <- P. symmetry. apply existsb_prune. intros s [].
  - rewrite <- P. symmetry. apply entriesLoop_prune. intros s [].
Qed.

End LexiconBase.

(** ** Weather-alert adapter: centres of areas *)

Section Centroids.
Import Noaa Api ByLocation.



Lemma earthquake_filter_alert_filter (events : list Disaster) (lat lon : Q)
      (radiusKm : option Q) :
  filterEarthquakesByLocation events lat lon radiusKm =
  filterAlertsByLocation events lat lon radiusKm.
Proof.
  unfold filterEarthquakesByLocation, filterAlertsByLocation.
  apply filter_ext. intro d. apply earthquakeWithin_alertWithin.
Qed.

Lemma NaN_not_within (lat lon radius : Q) (d : Disaster) :
  parseFloat (latitude d) = NaN -> ~ within lat lon radius d.
Proof.
  intros Hn (_ & _ & dist & Hd & _). rewrite Hn in Hd. discriminate.
Qed.

(** X22: an alert whose first ring is empty is still emitted, with
    coordinate texts that are not empty and parse to NaN.  No filter by
    location keeps it, whatever the centre and the radius: not
    [filterAlertsByLocation], not [filterEarthquakesByLocation], so that
    [getDisastersByLocation] never returns it; and [getAllDisasters] does not
    return it when it applies its location filter, that is when latitude,
    longitude and radius of the query are all non-zero. *)
Theorem empty_ring_never_located (feature : NOAAAlert) (rings : list (list (Q * Q))) :
  geometry feature = Some (Polygon ([] :: rings)) ->
  exists d,
    mapFeature feature = Ok d /\
    parseFloat (latitude d) = NaN /\ parseFloat (longitude d) = NaN /\
    is_empty (latitude d) = false /\ is_empty (longitude d) = false /\
    (forall events lat lon radiusKm,
        ~ In d (filterAlertsByLocation events lat lon radiusKm) /\
        ~ In d (filterEarthquakesByLocation events lat lon radiusKm)) /\
    (forall w lat lon radius options ds,
        snd (getDisastersByLocation w lat lon radius options) = Ok ds -> ~ In d ds) /\
    (forall w options lat lon radius ds,
        truthy (Options.latitude options) = Some lat ->
        truthy (Options.longitude options) = Some lon ->
        truthy (Options.radius options) = Some radius ->
        snd (getAllDisasters w options) = Ok ds -> ~ In d ds).
Proof.
  intro H. unfold mapFeature. rewrite H. eexists. split; [reflexivity|].
  set (d := {| id := NativeId (alert_id feature);
               disasterType := entriesLoop noaaEventToDisasterType (event feature) Storm;
               alertType := noaaSeverityToAlertType (severity_text feature);
               location := areaDesc feature;
               latitude := toString NaN; longitude := toString NaN;
               source := NOAA |}).
  assert (Hnan : parseFloat (latitude d) = NaN) by reflexivity.
  assert (Hal : forall events lat lon radiusKm,
             ~ In d (filterAlertsByLocation events lat lon radiusKm)).
  { intros events lat lon radiusKm Hin. unfold filterAlertsByLocation in Hin.
    apply filter_In in Hin as [_ Hin]. apply alertWithin_true in Hin.
    exact (NaN_not_within Hnan Hin). }
  split; [reflexivity|]. split; [reflexivity|]. split; [reflexivity|].
  split; [reflexivity|]. split; [|split].
  - intros events lat lon radiusKm. split; [apply Hal|].
    rewrite earthquake_filter_alert_filter. apply Hal.
  - intros w lat lon radius options ds Hds Hin.
    rewrite getDisastersByLocation_settles in Hds.
    destruct (snd (Usgs.fetchEarthquakeData (usgs w) (timeRangeOf options)))
      as [earthquakes|]; [|discriminate].
    destruct (snd (Noaa.fetchWeatherAlerts (noaa w) None)) as [weatherAlerts|];
      [|discriminate].
    cbn [snd] in Hds. injection Hds as <-.
    apply filterByAlertTypes_In, filterByTypes_In in Hin.
    apply in_app_or in Hin as [Hin | Hin]; [|apply in_app_or in Hin as [Hin | Hin]].
    + rewrite earthquake_filter_alert_filter in Hin.
      exact (Hal _ _ _ _ Hin).
    + exact (Hal _ _ _ _ Hin).
    + apply weatherDataAt_source in Hin. discriminate.
  - intros w options lat lon radius ds H1 H2 H3 Hds Hin.
    rewrite getAllDisasters_result in Hds.
    destruct (snd (Usgs.fetchEarthquakeData (usgs w) (timeRangeOf options)));
      [|discriminate].
    destruct (snd (Noaa.fetchWeatherAlerts (noaa w) None)); [|discriminate].
    destruct (snd (weatherPromise w options)); [|discriminate].
    injection Hds as <-. unfold filtered in Hin.
    apply (filterByLocation_within _ _ H1 H2 H3) in Hin as [_ Hin].
    exact (NaN_not_within Hnan Hin).
Qed.

Lemma empty_ring_never_located_witness :
  exists d,
    mapFeature (alert "Flood Warning" (Some (Polygon [[]]))) = Ok d /\
    parseFloat (latitude d) = NaN /\ parseFloat (longitude d) = NaN.
Proof.
  destruct (@empty_ring_never_located
              (alert "Flood Warning" (Some (Polygon [[]]))) [] eq_refl)
    as (d & H1 & H2 & H3 & _).
  exists d. repeat split; assumption.
Defined.

End Centroids.

(** ** Seismic adapter: location of earthquakes *)

Section EarthquakeLocation.
Import Api ByLocation.

Ltac lra := Lra.lra.

(** X23: every earthquake of the feed becomes an event that carries the
    latitude and longitude of its feature (second and first of the GeoJSON
    triple) as numbers.  With a radius of 6371 * 4 km or more, which exceeds
    half the circumference, the filter by location keeps such an event
    exactly when its distance from the centre is a number: it removes the
    events whose distance is NaN and no other. *)
Theorem large_radius_keeps_located_earthquakes (data : Usgs.USGSResponse)
        (lat lon radius : Q) (feature : Usgs.USGSFeature) :
  6371 * 4 <= radius ->
  In feature (Usgs.features data) ->
  parseFloat (latitude (Usgs.mapFeature feature))
    = Num (snd (fst (Usgs.coordinates feature))) /\
  parseFloat (longitude (Usgs.mapFeature feature))
    = Num (fst (fst (Usgs.coordinates feature))) /\
  (In (Usgs.mapFeature feature)
      (filterEarthquakesByLocation (Usgs.mapUSGSResponseToDisasters data)
                                   lat lon (Some radius)) <->
   calculateDistance (Real (Q2R lat)) (Real (Q2R lon))
                     (Real (Q2R (snd (fst (Usgs.coordinates feature)))))
                     (Real (Q2R (fst (fst (Usgs.coordinates feature))))) <> RNaN).
Proof.
  intros Hr Hin.
  assert (Hc : parseFloat (latitude (Usgs.mapFeature feature))
               = Num (snd (fst (Usgs.coordinates feature))) /\
               parseFloat (longitude (Usgs.mapFeature feature))
               = Num (fst (fst (Usgs.coordinates feature)))).
  { unfold Usgs.mapFeature. destruct (Usgs.coordinates feature) as [[flon flat] depth].
    split; reflexivity. }
  destruct Hc as [Hla Hlo]. split; [exact Hla|]. split; [exact Hlo|].
  unfold filterEarthquakesByLocation, orDefault. rewrite filter_In.
  unfold earthquakeWithin. rewrite Hla, Hlo. cbn [toReal].
  set (distance := calculateDistance _ _ _ _).
  assert (Hmem : In (Usgs.mapFeature feature) (Usgs.mapUSGSResponseToDisasters data))
    by (apply in_map; exact Hin).
  destruct distance as [dist|] eqn:E.
  - split; [discriminate|]. intros _. split; [exact Hmem|].
    apply calculateDistance_real_bounds in E. unfold leq.
    destruct (Rle_dec dist (Q2R radius)) as [_|Hgt]; [reflexivity|].
    exfalso. apply Hgt. apply Qreals.Qle_Rle in Hr.
    assert (E4 : Q2R (6371 * 4) = (6371 * 4)%R) by (unfold Q2R; simpl; lra).
    rewrite E4 in Hr. pose proof PI_bounds. lra.
  - split; [intros [_ H]; discriminate | congruence].
Qed.

Lemma large_radius_keeps_located_earthquakes_witness :
  parseFloat (latitude (Usgs.mapFeature (quake 4.5 77.0 28.0))) = Num 28.0 /\
  parseFloat (longitude (Usgs.mapFeature (quake 4.5 77.0 28.0))) = Num 77.0.
Proof.
  destruct (@large_radius_keeps_located_earthquakes
              {| Usgs.features := [quake 4.5 77.0 28.0] |} (-33.9) 151.2 26000
              (quake 4.5 77.0 28.0)) as (H1 & H2 & _).
  - discriminate.
  - left. reflexivity.
  - split; assumption.
Defined.

End EarthquakeLocation.
